(** * Smart_Cities_Banorte: JSON recovery from model output and numeric clean-up

    A shallow embedding of

    - [clean_json_string] of [analyzer.py],
    - [clean_json_string] of [scraper_ia_pdf_a_json.py],
    - [to_number_simple] of [cleaner.py],

    together with the properties the specification states about them.

    Conventions.  A Python [str] is a list of Unicode code points.  The
    library function [json.loads] is not code of the repository: the two
    recovery routines are parameterised by it (a [Section] variable), and
    [Json.loads] below is an executable model of it that the concrete
    scenarios are evaluated with.  A Python [float] is represented by the
    exact rational it was read from: binary64 rounding is not modelled,
    the range of [float(int)] is. *)

From Stdlib Require Import Ascii String List ZArith NArith QArith Qreduction Lia Bool Arith.
Import ListNotations.

Set Warnings "-register-all".
Local Open Scope list_scope.
Local Open Scope N_scope.

(** ** Python strings *)

Definition char := N.
Definition str := list char.

Module PyStr.

Definition ord (a : ascii) : char := N_of_ascii a.

(** A literal of the source, written as a Rocq string. *)
Definition lit (s : string) : str := map ord (list_ascii_of_string s).

(** A literal in which every apostrophe stands for a double quote, so that
    JSON texts can be written down legibly. *)
Definition txt (s : string) : str :=
  map (fun c => if c =? ord "'" then 34 else c) (lit s).

Definition is_char (a : ascii) (c : char) : bool := c =? ord a.

(** [str.isspace] on one code point; also the class [\s] of [re] on a
    [str] pattern. *)
Definition isspace (c : char) : bool :=
  ((9 <=? c) && (c <=? 13)) || ((28 <=? c) && (c <=? 32))
  || (c =? 133) || (c =? 160) || (c =? 5760)
  || ((8192 <=? c) && (c <=? 8202)) || (c =? 8232) || (c =? 8233)
  || (c =? 8239) || (c =? 8287) || (c =? 12288).

Fixpoint lstrip (s : str) : str :=
  match s with
  | c :: r => if isspace c then lstrip r else s
  | [] => []
  end.

Definition rstrip (s : str) : str := rev (lstrip (rev s)).

(** [s.strip()] *)
Definition strip (s : str) : str := rstrip (lstrip s).

(** [s[a:b]] for indices [0 <= a], [0 <= b]. *)
Definition slice (s : str) (a b : nat) : str := firstn (b - a) (skipn a s).

(** [s.startswith(p)] *)
Fixpoint startswith (p s : str) : bool :=
  match p, s with
  | [], _ => true
  | a :: p', b :: s' => (a =? b) && startswith p' s'
  | _ :: _, [] => false
  end.

(** [p in s] *)
Fixpoint contains (p s : str) : bool :=
  startswith p s || match s with [] => false | _ :: s' => contains p s' end.

End PyStr.
Import PyStr.

(** ** Python values *)

(** A [float]: the exact rational of a finite value (kept reduced), or one
    of the three constants [json] and [float] know. *)
Inductive pyfloat : Type :=
| Finite (q : Q)
| Inf (negative : bool)
| NaN.

Definition finite (q : Q) : pyfloat := Finite (Qred q).

(** The values [json.loads] returns: [None], [bool], [int], [float], [str],
    [list], and [dict] as the list of its items in insertion order. *)
Inductive pyval : Type :=
| PyNone
| PyBool (b : bool)
| PyInt (z : Z)
| PyFloat (f : pyfloat)
| PyStr (s : str)
| PyList (l : list pyval)
| PyDict (items : list (str * pyval)).

Definition str_eqb (a b : str) : bool :=
  if list_eq_dec N.eq_dec a b then true else false.

(** [d[k] = v] on a [dict]: an existing key keeps its place. *)
Fixpoint dict_set (d : list (str * pyval)) (k : str) (v : pyval) : list (str * pyval) :=
  match d with
  | [] => [(k, v)]
  | (k', v') :: d' => if str_eqb k' k then (k', v) :: d' else (k', v') :: dict_set d' k v
  end.

(** [dict(pairs)] *)
Definition dict_of_pairs (pairs : list (str * pyval)) : list (str * pyval) :=
  fold_left (fun d kv => dict_set d (fst kv) (snd kv)) pairs [].

(** ** Exceptions

    What a call produces: the value it returns or the exception it
    raises. *)

Inductive exn : Type :=
| JSONDecodeError
| RecursionError
| OverflowError.

Inductive outcome (A : Type) : Type :=
| Return (a : A)
| Raise (e : exn).
Arguments Return {A} a.
Arguments Raise {A} e.

(** ** The strict parser: an executable model of [json.loads]

    The model follows [json/decoder.py] and [json/scanner.py] of CPython:
    [scanstring], [JSONObject], [JSONArray], the number syntax of
    [NUMBER_RE], the constants, and in [loads] the surrounding whitespace
    and the [Extra data] check.  The recursion limit of the interpreter
    is not modelled: the model never raises [RecursionError]. *)

Module Json.

(** [WHITESPACE_STR = ' \t\n\r'] *)
Definition is_ws (c : char) : bool :=
  (c =? 32) || (c =? 9) || (c =? 10) || (c =? 13).

Fixpoint skip_ws (s : str) : str :=
  match s with
  | c :: r => if is_ws c then skip_ws r else s
  | [] => []
  end.

Definition is_digit (c : char) : bool := (48 <=? c) && (c <=? 57).

Definition hex_val (c : char) : option N :=
  if is_digit c then Some (c - 48)
  else if (97 <=? c) && (c <=? 102) then Some (c - 87)
  else if (65 <=? c) && (c <=? 70) then Some (c - 55)
  else None.

Definition hex4 (a b c d : char) : option N :=
  match hex_val a, hex_val b, hex_val c, hex_val d with
  | Some x, Some y, Some z, Some w => Some (((x * 16 + y) * 16 + z) * 16 + w)
  | _, _, _, _ => None
  end.

(** The table [BACKSLASH] of the decoder. *)
Definition backslash (e : char) : option char :=
  if e =? 34 then Some 34
  else if e =? 92 then Some 92
  else if is_char "/" e then Some (ord "/")
  else if is_char "b" e then Some 8
  else if is_char "f" e then Some 12
  else if is_char "n" e then Some 10
  else if is_char "r" e then Some 13
  else if is_char "t" e then Some 9
  else None.

Definition high_surrogate (u : N) : bool := (55296 <=? u) && (u <=? 56319).
Definition low_surrogate (u : N) : bool := (56320 <=? u) && (u <=? 57343).
Definition join_surrogates (u u2 : N) : N :=
  65536 + ((u - 55296) * 1024 + (u2 - 56320)).

(** [scanstring(s, end, strict=True)], started after the opening quote;
    [acc] holds the characters decoded so far, latest first. *)
Fixpoint scanstring (s : str) (acc : str) : option (str * str) :=
  match s with
  | [] => None
  | c :: r =>
    if c =? 34 then Some (rev acc, r)
    else if c =? 92 then
      match r with
      | [] => None
      | e :: r1 =>
        if is_char "u" e then
          match r1 with
          | h1 :: h2 :: h3 :: h4 :: r2 =>
            match hex4 h1 h2 h3 h4 with
            | None => None
            | Some uni =>
              match r2 with
              | b :: u :: g1 :: g2 :: g3 :: g4 :: r3 =>
                if high_surrogate uni && (b =? 92) && is_char "u" u then
                  match hex4 g1 g2 g3 g4 with
                  | None => None
                  | Some uni2 =>
                    if low_surrogate uni2
                    then scanstring r3 (join_surrogates uni uni2 :: acc)
                    else scanstring r2 (uni :: acc)
                  end
                else scanstring r2 (uni :: acc)
              | _ => scanstring r2 (uni :: acc)
              end
            end
          | _ => None
          end
        else
          match backslash e with
          | Some ch => scanstring r1 (ch :: acc)
          | None => None
          end
      end
    else if c <? 32 then None
    else scanstring r (c :: acc)
  end.

Fixpoint span_digits (s : str) : str * str :=
  match s with
  | c :: r => if is_digit c then let (ds, t) := span_digits r in (c :: ds, t) else ([], s)
  | [] => ([], [])
  end.

Definition digits_val (ds : str) : Z :=
  fold_left (fun a c => (a * 10 + Z.of_N (c - 48))%Z) ds 0%Z.

(** The rational [m * 10^e]. *)
Definition decimal (m e : Z) : Q :=
  if (0 <=? e)%Z then inject_Z (m * 10 ^ e)
  else Qmake m (Z.to_pos (10 ^ (- e))).

(** [NUMBER_RE] matched at the head of [s]: an optional minus sign, then
    [0] or a nonzero digit and digits; optionally a point and digits;
    optionally [e] or [E], a sign and digits.  The result is an [int]
    when there is neither a fraction nor an exponent, a [float]
    otherwise. *)
Definition match_number (s : str) : option (pyval * str) :=
  let (sign, s1) :=
    match s with
    | c :: r => if is_char "-" c then ((-1)%Z, r) else (1%Z, s)
    | [] => (1%Z, s)
    end in
  match s1 with
  | [] => None
  | c :: r =>
    if is_digit c then
      let (int_part, s2) := if c =? 48 then ([c], r) else span_digits s1 in
      let (frac, s3) :=
        match s2 with
        | d :: s2' =>
          if is_char "." d then
            match span_digits s2' with
            | ([], _) => ([], s2)
            | (fd, t) => (fd, t)
            end
          else ([], s2)
        | [] => ([], s2)
        end in
      let (exp, s4) :=
        match s3 with
        | e :: s3' =>
          if is_char "e" e || is_char "E" e then
            let (esign, s3'') :=
              match s3' with
              | g :: t =>
                if is_char "-" g then ((-1)%Z, t)
                else if is_char "+" g then (1%Z, t)
                else (1%Z, s3')
              | [] => (1%Z, s3')
              end in
            match span_digits s3'' with
            | ([], _) => (None, s3)
            | (ed, t) => (Some (esign * digits_val ed)%Z, t)
            end
          else (None, s3)
        | [] => (None, s3)
        end in
      match frac, exp with
      | [], None => Some (PyInt (sign * digits_val int_part), s4)
      | _, _ =>
        let e := match exp with Some e => e | None => 0%Z end in
        Some (PyFloat (finite (decimal (sign * digits_val (int_part ++ frac))
                                       (e - Z.of_nat (length frac)))), s4)
      end
    else None
  end.

(** [scan_once], [JSONObject] and [JSONArray]; the two loops over the
    items of an object and of an array are [object_items] and
    [array_items].  [fuel] bounds the nesting of the calls. *)
Fixpoint scan_once (fuel : nat) (s : str) : option (pyval * str) :=
  match fuel with
  | O => None
  | S fuel' =>
    match s with
    | [] => None
    | c :: r =>
      if c =? 34 then
        match scanstring r [] with
        | Some (v, r') => Some (PyStr v, r')
        | None => None
        end
      else if is_char "{" c then
        match skip_ws r with
        | d :: r' =>
          if is_char "}" d then Some (PyDict [], r')
          else if d =? 34 then object_items fuel' r' []
          else None
        | [] => None
        end
      else if is_char "[" c then
        match skip_ws r with
        | d :: r' =>
          if is_char "]" d then Some (PyList [], r')
          else array_items fuel' (skip_ws r) []
        | [] => None
        end
      else if is_char "n" c && startswith (lit "null") s then Some (PyNone, skipn 4 s)
      else if is_char "t" c && startswith (lit "true") s then Some (PyBool true, skipn 4 s)
      else if is_char "f" c && startswith (lit "false") s then Some (PyBool false, skipn 5 s)
      else
        match match_number s with
        | Some res => Some res
        | None =>
          if is_char "N" c && startswith (lit "NaN") s then Some (PyFloat NaN, skipn 3 s)
          else if is_char "I" c && startswith (lit "Infinity") s
               then Some (PyFloat (Inf false), skipn 8 s)
          else if is_char "-" c && startswith (lit "-Infinity") s
               then Some (PyFloat (Inf true), skipn 9 s)
          else None
        end
    end
  end

with object_items (fuel : nat) (s : str) (pairs : list (str * pyval))
     : option (pyval * str) :=
  match fuel with
  | O => None
  | S fuel' =>
    match scanstring s [] with
    | None => None
    | Some (key, s1) =>
      match skip_ws s1 with
      | c :: s2 =>
        if is_char ":" c then
          match scan_once fuel' (skip_ws s2) with
          | None => None
          | Some (value, s3) =>
            match skip_ws s3 with
            | d :: s4 =>
              if is_char "}" d
              then Some (PyDict (dict_of_pairs (rev ((key, value) :: pairs))), s4)
              else if is_char "," d then
                match skip_ws s4 with
                | q :: s5 =>
                  if q =? 34 then object_items fuel' s5 ((key, value) :: pairs)
                  else None
                | [] => None
                end
              else None
            | [] => None
            end
          end
        else None
      | [] => None
      end
    end
  end

with array_items (fuel : nat) (s : str) (values : list pyval)
     : option (pyval * str) :=
  match fuel with
  | O => None
  | S fuel' =>
    match scan_once fuel' s with
    | None => None
    | Some (value, s1) =>
      match skip_ws s1 with
      | c :: s2 =>
        if is_char "]" c then Some (PyList (rev (value :: values)), s2)
        else if is_char "," c then array_items fuel' (skip_ws s2) (value :: values)
        else None
      | [] => None
      end
    end
  end.

(** The fuel that a text needs: a call is nested in another one for each
    bracket that opens a container and for each comma that separates two
    of its items. *)
Definition nesting (c : char) : bool :=
  is_char "{" c || is_char "[" c || is_char "," c.

Definition fuel_for (s : str) : nat := 2 * length (filter nesting s) + 4.

(** [JSONDecoder.decode]: [raw_decode] after leading whitespace, then
    nothing but whitespace; [None] when the text is rejected. *)
Definition decode (s : str) : option pyval :=
  match scan_once (fuel_for s) (skip_ws s) with
  | Some (v, rest) =>
    match skip_ws rest with
    | [] => Some v
    | _ :: _ => None
    end
  | None => None
  end.

(** [json.loads(s)] for a [str]. *)
Definition loads (s : str) : outcome pyval :=
  match decode s with
  | Some v => Return v
  | None => Raise JSONDecodeError
  end.

End Json.

(** ** More of Python

    What the rest of the code uses of the language: slices with a bound
    that may be negative, [dict.get] and [dict.setdefault], [str(n)] and
    [int(s)], and the product of an [int] and the [float] 0.7. *)

Module Builtins.

(** [len(s)] *)
Definition len (s : str) : Z := Z.of_nat (length s).

(** The position that the bound [i] of a slice stands for in a sequence
    of length [n]: a negative bound counts from the end, and the result
    is clipped to the sequence. *)
Definition bound (n i : Z) : nat :=
  Z.to_nat (Z.min n (Z.max 0 (if (i <? 0)%Z then n + i else i))).

(** [s[:i]] *)
Definition slice_to (s : str) (i : Z) : str := firstn (bound (len s) i) s.

(** [s[i:]] *)
Definition slice_from (s : str) (i : Z) : str := skipn (bound (len s) i) s.

(** [d.get(k)]; [None]: the key is absent. *)
Fixpoint dict_get (d : list (str * pyval)) (k : str) : option pyval :=
  match d with
  | [] => None
  | (k', v) :: d' => if str_eqb k' k then Some v else dict_get d' k
  end.

(** [d.setdefault(k, v)] *)
Definition setdefault (d : list (str * pyval)) (k : str) (v : pyval)
  : list (str * pyval) :=
  match dict_get d k with
  | Some _ => d
  | None => dict_set d k v
  end.

(** *** Integers and text *)

(** The decimal digits of [n] before [acc], the last one first found;
    [fuel] bounds their number. *)
Fixpoint digits_of (fuel : nat) (n : N) (acc : str) : str :=
  match fuel with
  | O => acc
  | S fuel' =>
    let acc := (48 + n mod 10) :: acc in
    if n <? 10 then acc else digits_of fuel' (n / 10) acc
  end.

(** A number has no more decimal digits than binary ones. *)
Definition str_of_nat (n : N) : str := digits_of (S (N.to_nat (N.log2 n))) n [].

(** [str(z)] for an [int] below the limit that the interpreter puts on
    the conversion (4300 digits). *)
Definition str_of_int (z : Z) : str :=
  if (z <? 0)%Z then ord "-" :: str_of_nat (Z.to_N (- z)) else str_of_nat (Z.to_N z).

(** Digits, with single underscores between them; [after_digit] tells
    that the character before is a digit. *)
Fixpoint int_digits (s : str) (acc : Z) (after_digit : bool) : option Z :=
  match s with
  | [] => if after_digit then Some acc else None
  | c :: r =>
    if Json.is_digit c then int_digits r (acc * 10 + Z.of_N (c - 48))%Z true
    else if is_char "_" c && after_digit then int_digits r acc false
    else None
  end.

(** The whitespace that [int] skips around a number: that of
    [str.isspace] but for the four separators 28 to 31. *)
Definition int_space (c : char) : bool :=
  isspace c && negb ((28 <=? c) && (c <=? 31)).

Fixpoint skip_int_space (s : str) : str :=
  match s with
  | c :: r => if int_space c then skip_int_space r else s
  | [] => []
  end.

(** [int(s)] for a [str]: whitespace around, an optional sign, digits.
    [None]: the call raises [ValueError].  Exact for code points below
    256, where the decimal digits are [0]-[9], and for a text below the
    limit that the interpreter puts on the conversion (4300 digits). *)
Definition int_of_str (s : str) : option Z :=
  let t := rev (skip_int_space (rev (skip_int_space s))) in
  let (sign, body) :=
    match t with
    | c :: r => if is_char "-" c then ((-1)%Z, r)
                else if is_char "+" c then (1%Z, r)
                else (1%Z, t)
    | [] => (1%Z, t)
    end in
  match int_digits body 0%Z false with
  | Some n => Some (sign * n)%Z
  | None => None
  end.

(** *** The product of an [int] and 0.7

    A binary64 value has 53 significant bits.  [round53 m] is the value
    nearest to the integer [0 <= m] among the integers with 53
    significant bits, the even one of two that are equally near. *)
Definition round53 (m : Z) : Z :=
  let excess := (Z.log2 m + 1 - 53)%Z in
  if (excess <=? 0)%Z then m
  else
    let q := Z.shiftr m excess in
    let r := (m - Z.shiftl q excess)%Z in
    let half := Z.shiftl 1 (excess - 1) in
    let q := if (r <? half)%Z then q
             else if (half <? r)%Z then (q + 1)%Z
             else if Z.even q then q else (q + 1)%Z in
    Z.shiftl q excess.

(** The [float] 0.7 is [seven_tenths / 2^53]. *)
Definition seven_tenths : Z := 6305039478318694.

(** [int(n * 0.7)]: [n] is converted to a [float], which raises
    [OverflowError] from [2^1024 - 2^970] on; the product is rounded,
    and [int] drops its fraction. *)
Definition int_times_07 (n : Z) : outcome Z :=
  if (Z.abs n <? 2 ^ 1024 - 2 ^ 970)%Z
  then Return (Z.sgn n * (round53 (round53 (Z.abs n) * seven_tenths) / 2 ^ 53))%Z
  else Raise OverflowError.

End Builtins.
Import Builtins.

(** ** The answer of the language model

    [model.generate_content(prompt)] and the read of the attribute
    [text] of its result leave the program.  What they evaluate to is an
    input of the embedding: the text of the answer ([None] where the
    attribute holds no text), or the exception raised, given by its
    message [str(e)] and by whether it is a [json.JSONDecodeError]. *)
Inductive reply : Type :=
| Answer (text : option str)
| Failure (json_error : bool) (message : str).

(** ** [analyzer.py] *)

Module Analyzer.

(** [re.sub(r"```json|```", "", s)]: at each position from the left the
    tagged marker is tried first, then the bare one; a match is dropped
    and the search resumes after it.  [skip] counts the characters of the
    current match still to drop. *)
Fixpoint sub_fences (skip : nat) (s : str) : str :=
  match s with
  | [] => []
  | c :: r =>
    match skip with
    | S k => sub_fences k r
    | O =>
      if startswith (lit "```json") s then sub_fences 6 r
      else if startswith (lit "```") s then sub_fences 2 r
      else c :: sub_fences 0 r
    end
  end.

(** [s = re.sub(r"```json|```", "", json_str).strip()] *)
Definition prepare (json_str : str) : str := strip (sub_fences 0 json_str).

Section Recovery.

(** [json.loads] *)
Variable loads : str -> outcome pyval.

(** The loop [for i, ch in enumerate(s)], entered at index [i] with
    [rest = s[i:]] and the current [start] and [depth].  [Some v]: the
    loop returned [v]; [None]: it ran to the end of the text.  The
    handler [except Exception] catches whatever [json.loads] raises. *)
Fixpoint scan (s : str) (i : nat) (rest : str)
         (start : option nat) (depth : Z) : option pyval :=
  match rest with
  | [] => None
  | ch :: rest' =>
    if is_char "{" ch then
      scan s (S i) rest'
           (match start with None => Some i | Some _ => start end)
           (depth + 1)%Z
    else if is_char "}" ch then
      let depth := (depth - 1)%Z in
      match (depth =? 0)%Z, start with
      | true, Some st =>
        match loads (slice s st (i + 1)) with
        | Return v => Some v
        | Raise _ => scan s (S i) rest' None 0%Z
        end
      | _, _ => scan s (S i) rest' start depth
      end
    else scan s (S i) rest' start depth
  end.

(** No statement of the function raises, and both calls of
    [json.loads] are guarded by [except Exception]. *)
Definition clean_json_string (json_str : str) : outcome pyval :=
  match json_str with
  | [] => Return PyNone
  | _ :: _ =>
    let s := prepare json_str in
    match scan s 0 s None 0%Z with
    | Some v => Return v
    | None =>
      match loads s with
      | Return v => Return v
      | Raise _ => Return PyNone
      end
    end
  end.

End Recovery.

Section Caller.

(** [json.loads] *)
Variable loads : str -> outcome pyval.

(** [str(e)] for an exception [e] of the parser. *)
Variable describe : exn -> str.

(** [analyze_with_gemini(model, document_text, file_path)].  A model is
    given by its answer to the prompt that [build_prompt] makes of the
    document and the path; [None]: there is no model. *)
Definition analyze_with_gemini (model : option (str -> str -> reply))
           (document_text file_path : str) : pyval :=
  match model with
  | None => PyNone
  | Some generate =>
    match generate document_text file_path with
    | Failure _ message =>
      PyDict [(lit "_error", PyStr (lit "llm_exception")); (lit "details", PyStr message)]
    | Answer text =>
      let raw := match text with Some t => t | None => [] end in
      match clean_json_string loads raw with
      | Return PyNone =>
        PyDict [(lit "_error", PyStr (lit "llm_no_json"));
                (lit "raw_preview", PyStr (firstn 1000 raw))]
      | Return parsed => parsed
      | Raise e =>
        PyDict [(lit "_error", PyStr (lit "llm_exception"));
                (lit "details", PyStr (describe e))]
      end
    end
  end.

End Caller.

End Analyzer.

(** ** [scraper_ia_pdf_a_json.py] *)

Module Scraper.

(** [re.sub(marker + r"\s*", "", s)] for a non-empty literal [marker]:
    each match is the marker and the whole run of whitespace after it.
    [skip] counts the characters of the marker still to drop; [ws] tells
    that the whitespace run of a match is being dropped. *)
Fixpoint sub_marker_ws (marker : str) (skip : nat) (ws : bool) (s : str) : str :=
  match s with
  | [] => []
  | c :: r =>
    match skip with
    | S k => sub_marker_ws marker k true r
    | O =>
      if ws && isspace c then sub_marker_ws marker 0 true r
      else if startswith marker s then sub_marker_ws marker (length marker - 1) true r
      else c :: sub_marker_ws marker 0 false r
    end
  end.

(** The three statements that clean [json_str]. *)
Definition prepare (json_str : str) : str :=
  let json_str := sub_marker_ws (lit "```json") 0 false json_str in
  let json_str := sub_marker_ws (lit "```") 0 false json_str in
  strip json_str.

Section Recovery.

(** [json.loads] *)
Variable loads : str -> outcome pyval.

(** The loop [for i, char in enumerate(json_str)]; the head of [stack]
    is its top.  [Some o]: the loop was left with [o], a returned value
    or an exception other than [json.JSONDecodeError], which
    the handler does not catch; [None]: it ran to the end. *)
Fixpoint scan (s : str) (i : nat) (rest : str)
         (stack : list char) (start_idx : Z) : option (outcome pyval) :=
  match rest with
  | [] => None
  | ch :: rest' =>
    if is_char "{" ch then
      scan s (S i) rest' (ord "{" :: stack)
           (match stack with [] => Z.of_nat i | _ :: _ => start_idx end)
    else if is_char "}" ch then
      match stack with
      | _ :: stack' =>
        match stack', (start_idx =? -1)%Z with
        | [], false =>
          match loads (slice s (Z.to_nat start_idx) (i + 1)) with
          | Raise JSONDecodeError => scan s (S i) rest' stack' start_idx
          | o => Some o
          end
        | _, _ => scan s (S i) rest' stack' start_idx
        end
      | [] => scan s (S i) rest' stack start_idx
      end
    else scan s (S i) rest' stack start_idx
  end.

Definition clean_json_string (json_str : str) : outcome pyval :=
  let json_str := prepare json_str in
  match loads json_str with
  | Raise JSONDecodeError =>
    match scan json_str 0 json_str [] (-1)%Z with
    | Some o => o
    | None => Raise JSONDecodeError
    end
  | o => o
  end.

End Recovery.

(** *** [truncate_smart] *)

(** The text put in the place of what is cut out. *)
Definition truncado : str := [10; 10] ++ lit "[...TRUNCADO...]" ++ [10; 10].

Definition truncate_smart (text : str) (max_chars : Z) : outcome str :=
  if (len text <=? max_chars)%Z then Return text
  else
    match int_times_07 max_chars with
    | Raise e => Raise e
    | Return start_portion =>
      let end_portion := (max_chars - start_portion)%Z in
      Return (slice_to text start_portion ++ truncado ++ slice_from text (- end_portion))
    end.

Definition MAX_CHARS : Z := 100000.

(** *** [analyze_document] *)

(** [str(e)] for the exception that [clean_json_string] raises at its
    end; 243 and 225 are its accented letters. *)
Definition no_json_message : str :=
  lit "No se encontr" ++ [243] ++ lit " JSON v" ++ [225]
  ++ lit "lido: line 1 column 1 (char 0)".

Definition json_invalido : str := lit "JSON inv" ++ [225] ++ lit "lido".

Section Caller.

(** [json.loads] *)
Variable loads : str -> outcome pyval.

(** [str(e)] for an exception [e] of the parser. *)
Variable describe : exn -> str.

(** The model, given by its answer to the prompt that [build_prompt]
    makes of a document and a path. *)
Variable generate : str -> str -> reply.

(** [truncate_smart] is called before the [try]; the two handlers
    catch every exception of the statements after it. *)
Definition analyze_document (document_text file_path : str) : outcome pyval :=
  match truncate_smart document_text MAX_CHARS with
  | Raise e => Raise e
  | Return document_text =>
    match generate document_text file_path with
    | Failure true message =>
      Return (PyDict [(lit "error", PyStr json_invalido);
                      (lit "details", PyStr message);
                      (lit "raw_preview", PyStr (lit "N/A"))])
    | Failure false message => Return (PyDict [(lit "error", PyStr message)])
    | Answer None =>
      Return (PyDict [(lit "error",
                       PyStr (lit "'NoneType' object has no attribute 'strip'"))])
    | Answer (Some text) =>
      let output := strip text in
      match clean_json_string loads output with
      | Return v => Return v
      | Raise JSONDecodeError =>
        Return (PyDict [(lit "error", PyStr json_invalido);
                        (lit "details", PyStr no_json_message);
                        (lit "raw_preview", PyStr (firstn 300 output))])
      | Raise e => Return (PyDict [(lit "error", PyStr (describe e))])
      end
    end
  end.

End Caller.

End Scraper.

(** ** [cleaner.py] *)

Module Cleaner.

(** The argument of [to_number_simple]: [None], a [bool], an [int], a
    [float] or a [str], the scalar values a field of a decoded record
    holds.  ([str()] of a [list] or a [dict] is not modelled.) *)
Inductive scalar : Type :=
| SNone
| SBool (b : bool)
| SInt (z : Z)
| SFloat (f : pyfloat)
| SStr (s : str).

(** [float(z)] for an [int]: every integer that rounds to a binary64
    value is in range; from [2^1024 - 2^970] on the conversion raises
    [OverflowError]. *)
Definition float_of_int (z : Z) : outcome pyfloat :=
  if (Z.abs z <? 2 ^ 1024 - 2 ^ 970)%Z
  then Return (finite (inject_Z z))
  else Raise OverflowError.

(** [str.lower] on one code point.  Exact for code points below 256,
    whose upper-case letters are [A]-[Z] and the Latin-1 block. *)
Definition lower_char (c : char) : char :=
  if ((65 <=? c) && (c <=? 90))
     || ((192 <=? c) && (c <=? 222) && negb (c =? 215))
  then c + 32 else c.

Definition lower (s : str) : str := map lower_char s.

(** [s.replace(",", "")] *)
Definition remove_commas (s : str) : str :=
  filter (fun c => negb (is_char "," c)) s.

(** The class [\d] of [re]; exact for code points below 256. *)
Definition isdecimal (c : char) : bool := (48 <=? c) && (c <=? 57).

(** *** The three patterns

    A pattern is matched at the head of a text by a backtracking
    matcher in continuation-passing style: each piece takes the text
    left and the continuation that matches what follows it, and tries
    its alternatives in the order [re] does (greedy first). *)
Section Matcher.

Context {A : Type}.

(** [p+] for a character class [p]. *)
Fixpoint re_plus (p : char -> bool) (s : str) (k : str -> option A) : option A :=
  match s with
  | c :: r =>
    if p c then
      match re_plus p r k with
      | Some x => Some x
      | None => k r
      end
    else None
  | [] => None
  end.

(** [p*] for a character class [p]. *)
Fixpoint re_star (p : char -> bool) (s : str) (k : str -> option A) : option A :=
  match s with
  | c :: r =>
    if p c then
      match re_star p r k with
      | Some x => Some x
      | None => k s
      end
    else k s
  | [] => k []
  end.

(** A literal. *)
Definition re_lit (m : str) (s : str) (k : str -> option A) : option A :=
  if startswith m s then k (skipn (length m) s) else None.

(** [(body)?] *)
Definition re_opt (body : str -> (str -> option A) -> option A)
           (s : str) (k : str -> option A) : option A :=
  match body s k with
  | Some x => Some x
  | None => k s
  end.

(** The group [(\d+(\.\d+)?)]; the continuation receives the text of
    the group and the text left after it. *)
Definition re_number (s : str) (k : str -> str -> option A) : option A :=
  re_plus isdecimal s (fun s1 =>
    re_opt (fun s' k' => re_lit (lit ".") s' (fun s2 => re_plus isdecimal s2 k'))
           s1
           (fun s2 => k (firstn (length s - length s2) s) s2)).

(** [re.search]: the leftmost position at which the pattern matches. *)
Fixpoint search (pat : str -> option A) (s : str) : option A :=
  match pat s with
  | Some x => Some x
  | None =>
    match s with
    | [] => None
    | _ :: r => search pat r
    end
  end.

End Matcher.

(** The group followed by whitespace and the literal [unit]; the
    result is [m.group(1)]. *)
Definition number_then (unit : str) (s : str) : option str :=
  re_number s (fun g rest =>
    re_star isspace rest (fun r => re_lit unit r (fun _ => Some g))).

Definition number_alone (s : str) : option str :=
  re_number s (fun g _ => Some g).

(** [float(g)] for the text [g] of a group: digits, optionally a point
    and digits. *)
Definition float_of_group (g : str) : pyfloat :=
  let (ip, rest) := Json.span_digits g in
  match rest with
  | _ :: fp => finite (Json.decimal (Json.digits_val (ip ++ fp)) (- Z.of_nat (length fp)))
  | [] => finite (inject_Z (Json.digits_val ip))
  end.

(** [x * n] for a [float] [x] and a positive [int] [n]. *)
Definition float_mul (x : pyfloat) (n : Z) : pyfloat :=
  match x with
  | Finite q => finite (q * inject_Z n)
  | Inf b => Inf b
  | NaN => NaN
  end.

Definition sentinel (s : str) : bool :=
  str_eqb s [] || str_eqb s (lit "null") || str_eqb s (lit "none") || str_eqb s (lit "-").

Definition to_number_simple (s : scalar) : outcome pyval :=
  match s with
  | SNone => Return PyNone
  | SBool b => Return (PyFloat (finite (inject_Z (if b then 1 else 0))))
  | SInt z =>
    match float_of_int z with
    | Return f => Return (PyFloat f)
    | Raise e => Raise e
    end
  | SFloat f => Return (PyFloat f)
  | SStr s =>
    let s := strip (remove_commas (lower s)) in
    if sentinel s then Return PyNone
    else
      match search (number_then (lit "mill")) s with
      | Some g => Return (PyFloat (float_mul (float_of_group g) 1000000))
      | None =>
        match search (number_then (lit "mil")) s with
        | Some g => Return (PyFloat (float_mul (float_of_group g) 1000))
        | None =>
          match search number_alone s with
          | Some g => Return (PyFloat (float_of_group g))
          | None => Return PyNone
          end
        end
      end
  end.

(** *** [normalize_record] *)

(** A record: a [dict] whose keys are texts. *)
Definition record : Type := list (str * pyval).

Definition text_fields : list str :=
  [lit "nombre"; lit "sector"; lit "doc_fuente"; lit "fecha_carga"].

Definition numeric_fields : list str :=
  [lit "presupuesto_total_mxn"; lit "beneficiarios_estimados";
   lit "costo_operativo_mxn"; lit "costo_mantenimiento_mxn";
   lit "impacto_fisico"; lit "kpi"; lit "score_costo_beneficio";
   lit "eficiencia_financiera"].

Definition year_fields : list str := [lit "anio_inicio"; lit "anio_fin"].

Section Normalize.

(** [str(v)] for a [float], a [list] or a [dict]. *)
Variable repr : pyval -> outcome str.

(** [float(s)] for a [str]; [None]: the call raises [ValueError]. *)
Variable float_of_str : str -> option pyfloat.

(** [to_number_simple(v)] for a value of whatever type: [str(v)] is
    the text of a [list] or a [dict]. *)
Definition to_number (v : pyval) : outcome pyval :=
  match v with
  | PyNone => to_number_simple SNone
  | PyBool b => to_number_simple (SBool b)
  | PyInt z => to_number_simple (SInt z)
  | PyFloat f => to_number_simple (SFloat f)
  | PyStr s => to_number_simple (SStr s)
  | PyList _ | PyDict _ =>
    match repr v with
    | Return t => to_number_simple (SStr t)
    | Raise e => Raise e
    end
  end.

(** [str(v)]; [None]: the call raises, as it does for an [int] of more
    than 4300 digits. *)
Definition py_str (v : pyval) : option str :=
  match v with
  | PyNone => Some (lit "None")
  | PyBool b => Some (if b then lit "True" else lit "False")
  | PyInt z => if (Z.abs z <? 10 ^ 4300)%Z then Some (str_of_int z) else None
  | PyStr s => Some s
  | PyFloat _ | PyList _ | PyDict _ =>
    match repr v with
    | Return t => Some t
    | Raise _ => None
    end
  end.

(** [float(v)]; [None]: the call raises. *)
Definition py_float (v : pyval) : option pyfloat :=
  match v with
  | PyBool b => Some (finite (inject_Z (if b then 1 else 0)))
  | PyInt z =>
    match float_of_int z with
    | Return f => Some f
    | Raise _ => None
    end
  | PyFloat f => Some f
  | PyStr s => float_of_str s
  | PyNone | PyList _ | PyDict _ => None
  end.

(** [rec.setdefault(k, None)] for each of the keys. *)
Definition set_defaults (keys : list str) (rec : record) : record :=
  fold_left (fun rec k => setdefault rec k PyNone) keys rec.

(** The loop over the numeric fields; [to_number_simple] is not
    guarded: what it raises leaves the function. *)
Fixpoint normalize_numbers (keys : list str) (rec : record) : outcome record :=
  match keys with
  | [] => Return rec
  | k :: keys' =>
    match dict_get rec k with
    | None => normalize_numbers keys' rec
    | Some v =>
      match to_number v with
      | Return x => normalize_numbers keys' (dict_set rec k x)
      | Raise e => Raise e
      end
    end
  end.

(** [v in (None, "", "null")] *)
Definition blank (v : pyval) : bool :=
  match v with
  | PyNone => true
  | PyStr s => str_eqb s [] || str_eqb s (lit "null")
  | _ => false
  end.

(** The value given to a year field that holds [v]; an absent field
    reads [None]. *)
Definition normalize_year (v : option pyval) : pyval :=
  match v with
  | None => PyNone
  | Some v =>
    if blank v then PyNone
    else
      match py_str v with
      | Some t =>
        match int_of_str (firstn 4 (strip t)) with
        | Some z => PyInt z
        | None => PyNone
        end
      | None => PyNone
      end
  end.

Definition normalize_years (keys : list str) (rec : record) : record :=
  fold_left (fun rec ky => dict_set rec ky (normalize_year (dict_get rec ky))) keys rec.

(** The loop over [rec["confianza"].items()]. *)
Definition normalize_confianza (items : record) : record :=
  map (fun kv => (fst kv, match py_float (snd kv) with
                          | Some f => PyFloat f
                          | None => PyNone
                          end)) items.

(** [normalize_record(rec)].  The copy [dict(rec)] is shallow: the
    [dict] under [confianza] is one object, held by the copy and by the
    argument, and the last loop updates it in place.  The call is given
    by the record it returns and by the argument as it leaves it. *)
Definition normalize_record (rec : record) : outcome (record * record) :=
  let copy := set_defaults text_fields rec in
  match normalize_numbers numeric_fields copy with
  | Raise e => Raise e
  | Return copy =>
    let copy := normalize_years year_fields copy in
    match dict_get copy (lit "confianza") with
    | Some (PyDict items) =>
      let confianza := PyDict (normalize_confianza items) in
      Return (dict_set copy (lit "confianza") confianza,
              dict_set rec (lit "confianza") confianza)
    | _ => Return (copy, rec)
    end
  end.

End Normalize.

End Cleaner.

(** ** Notions of the specification *)

Module Spec.

Definition is_brace (c : char) : bool := is_char "{" c || is_char "}" c.

(** Noise: text without a brace. *)
Definition brace_free (s : str) : bool := forallb (fun c => negb (is_brace c)) s.

(** [closes k o]: read from nesting depth [k + 1], the text [o] brings the
    depth to zero at its last character and not before. *)
Fixpoint closes (k : nat) (o : str) : bool :=
  match o with
  | [] => false
  | c :: r =>
    if is_char "{" c then closes (S k) r
    else if is_char "}" c then
      match k with
      | O => match r with [] => true | _ :: _ => false end
      | S k' => closes k' r
      end
    else closes k r
  end.

(** A candidate span: from a brace that opens at depth zero to the brace
    at which the depth is back to zero. *)
Definition is_span (o : str) : bool :=
  match o with
  | c :: r => is_char "{" c && closes 0 r
  | [] => false
  end.


(** The text holds no fence marker. *)
Definition no_fence (s : str) : bool := negb (contains (lit "```") s).

(** The text holds no closing brace. *)
Definition no_closing (s : str) : bool :=
  forallb (fun c => negb (is_char "}" c)) s.

Section FirstValid.

Variable loads : str -> outcome pyval.

(** [first_valid t v]: the text [t] is noise and candidate spans, and
    [v] is the strict parse of its first span that parses; the spans
    before it are rejected with [e = JSONDecodeError]. *)
Inductive first_valid : str -> pyval -> Prop :=
| fv_here pre o rest v :
    brace_free pre = true -> is_span o = true ->
    loads o = Return v ->
    first_valid (pre ++ o ++ rest) v
| fv_skip pre o rest v :
    brace_free pre = true -> is_span o = true ->
    loads o = Raise JSONDecodeError ->
    first_valid rest v ->
    first_valid (pre ++ o ++ rest) v.

End FirstValid.

(** [strips_markers s u]: [u] is [s] without some occurrences of the two
    fence markers, and nothing else is removed. *)
Inductive strips_markers : str -> str -> Prop :=
| sm_nil : strips_markers [] []
| sm_keep c s u : strips_markers s u -> strips_markers (c :: s) (c :: u)
| sm_tagged s u : strips_markers s u -> strips_markers (lit "```json" ++ s) u
| sm_bare s u : strips_markers s u -> strips_markers (lit "```" ++ s) u.

(** [strips_marker_ws m b s u]: [u] is [s] without some occurrences of
    the marker [m] and without whitespace that follows a removed
    occurrence; [b] tells that such an occurrence has just been
    removed. *)
Inductive strips_marker_ws (m : str) : bool -> str -> str -> Prop :=
| smw_nil b : strips_marker_ws m b [] []
| smw_keep b c s u :
    strips_marker_ws m false s u -> strips_marker_ws m b (c :: s) (c :: u)
| smw_space c s u :
    isspace c = true -> strips_marker_ws m true s u ->
    strips_marker_ws m true (c :: s) u
| smw_marker b s u :
    strips_marker_ws m true s u -> strips_marker_ws m b (m ++ s) u.

(** The failure taxonomy of the specification. *)
Inductive failure : Type :=
| NoJsonFound
| UnbalancedBraces
| MalformedJson.

(** The scanner of the specification, in its words: on an opening brace
    at depth zero the start is recorded, the depth is incremented; on a
    closing brace the depth is decremented, and a candidate is found if
    the depth is zero and a start is recorded. *)
Fixpoint has_candidate (t : str) (started : bool) (depth : Z) : bool :=
  match t with
  | [] => false
  | c :: r =>
    if is_char "{" c then has_candidate r (started || (depth =? 0)%Z) (depth + 1)%Z
    else if is_char "}" c then
      ((depth - 1 =? 0)%Z && started) || has_candidate r started (depth - 1)%Z
    else has_candidate r started depth
  end.

(** The cause of a failed recovery on the cleaned text [t]. *)
Definition cause (t : str) : failure :=
  if negb (existsb (is_char "{") t) then NoJsonFound
  else if negb (has_candidate t false 0%Z) then UnbalancedBraces
  else MalformedJson.

(** Failures are typed: the cause can be read off the outcome. *)
Definition typed_failures (recover : str -> outcome pyval) (cleaned : str -> str) : Prop :=
  exists classify : outcome pyval -> failure,
    forall w,
      recover w = Return PyNone \/ recover w = Raise JSONDecodeError ->
      classify (recover w) = cause (cleaned w).

(** The fence stripper removes fence markers only, then trims. *)
Definition only_markers_removed (stripper : str -> str) : Prop :=
  forall s, exists u, strips_markers s u /\ stripper s = strip u.

(** A span in a tagged fence, with prose before and after it. *)
Definition fenced (pre body post : str) : str :=
  pre ++ lit "```json" ++ [10] ++ body ++ [10] ++ lit "```" ++ post.

(** The concrete scenario of the specification; 237 and 225 are the
    accented letters of its first two words. *)
Definition scenario_prose : str :=
  lit "Aqu" ++ [237] ++ lit " est" ++ [225] ++ lit " tu resultado:" ++ [10].

Definition scenario_body : str :=
  txt "{'nombre': 'Puente X', 'presupuesto_total_mxn': 15000000.0}".

Definition scenario_text : str :=
  fenced scenario_prose scenario_body ([10] ++ lit "Fin.").

Definition scenario_record : pyval :=
  PyDict [(lit "nombre", PyStr (lit "Puente X"));
          (lit "presupuesto_total_mxn", PyFloat (Finite (15000000 # 1)))].

(** The head of a text is outside a character class. *)
Definition stops (p : char -> bool) (t : str) : Prop :=
  match t with
  | [] => True
  | c :: _ => p c = false
  end.


End Spec.
Import Spec.

(** ** Notions of the further properties *)

(** A [float] that is neither negative nor a NaN. *)
Definition not_negative (f : pyfloat) : Prop :=
  match f with
  | Finite q => (0 <= q)%Q
  | Inf negative => negative = false
  | NaN => False
  end.

(** [k in d] *)
Definition has_key (d : list (str * pyval)) (k : str) : bool :=
  match dict_get d k with
  | Some _ => true
  | None => false
  end.

(** [k] is one of [ks]. *)
Definition among (ks : list str) (k : str) : bool := existsb (fun k' => str_eqb k' k) ks.

(** A value that [to_number_simple] returns. *)
Definition number_or_none (v : pyval) : Prop :=
  v = PyNone \/ exists f, v = PyFloat f.

(** A value that a year field holds after [normalize_record]. *)
Definition short_year (v : pyval) : Prop :=
  v = PyNone \/ exists z, v = PyInt z /\ (-999 <= z <= 9999)%Z.

(** A record, and the builtins [str] and [float] that the examples are
    evaluated with: [float] reads the text [0.5] and rejects every other
    one. *)
Definition sample_repr (v : pyval) : outcome str := Return [].

Definition sample_float (s : str) : option pyfloat :=
  if str_eqb s (lit "0.5") then Some (Finite (1 # 2)) else None.

Definition sample_record : Cleaner.record :=
  [(lit "sector", PyStr (lit "Agua"));
   (lit "presupuesto_total_mxn", PyStr (lit "15 millones"));
   (lit "anio_inicio", PyStr (lit "2024-05-01"));
   (lit "anio_fin", PyInt 20265);
   (lit "confianza", PyDict [(lit "sector", PyStr (lit "0.5")); (lit "kpi", PyNone)]);
   (lit "ubicacion", PyStr (lit "CDMX"))].

Definition sample_result : Cleaner.record :=
  [(lit "sector", PyStr (lit "Agua"));
   (lit "presupuesto_total_mxn", PyFloat (Finite (15000000 # 1)));
   (lit "anio_inicio", PyInt 2024);
   (lit "anio_fin", PyInt 2026);
   (lit "confianza", PyDict [(lit "sector", PyFloat (Finite (1 # 2))); (lit "kpi", PyNone)]);
   (lit "ubicacion", PyStr (lit "CDMX"));
   (lit "nombre", PyNone);
   (lit "doc_fuente", PyNone);
   (lit "fecha_carga", PyNone)].

Definition sample_argument : Cleaner.record :=
  [(lit "sector", PyStr (lit "Agua"));
   (lit "presupuesto_total_mxn", PyStr (lit "15 millones"));
   (lit "anio_inicio", PyStr (lit "2024-05-01"));
   (lit "anio_fin", PyInt 20265);
   (lit "confianza", PyDict [(lit "sector", PyFloat (Finite (1 # 2))); (lit "kpi", PyNone)]);
   (lit "ubicacion", PyStr (lit "CDMX"))].

(** The text of the year [z] is read back as [z]. *)
Definition year_kept (z : Z) : bool :=
  match int_of_str (firstn 4 (strip (str_of_int z))) with
  | Some z' => (z' =? z)%Z
  | None => false
  end.

(** The key of the nested [dict]. *)
Definition confianza : str := lit "confianza".

(** * Properties *)

(** ** Characters and slices *)

Lemma is_char_true a c : is_char a c = true -> c = ord a.
Proof. unfold is_char. apply N.eqb_eq. Qed.

Lemma not_brace_inv c :
  negb (is_brace c) = true -> is_char "{" c = false /\ is_char "}" c = false.
Proof.
  unfold is_brace. rewrite negb_true_iff, orb_false_iff. tauto.
Qed.

Lemma slice_app (a o b : str) :
  slice (a ++ o ++ b) (length a) (length a + length o) = o.
Proof.
  unfold slice. rewrite skipn_app, skipn_all, Nat.sub_diag. simpl.
  replace (length a + length o - length a)%nat with (length o) by lia.
  rewrite firstn_app, firstn_all, Nat.sub_diag. simpl. apply app_nil_r.
Qed.

Section AnalyzerScan.
Variable loads : str -> outcome pyval.

Lemma A_scan_noise pre : forall s i rest st d,
  brace_free pre = true ->
  Analyzer.scan loads s i (pre ++ rest) st d
  = Analyzer.scan loads s (i + length pre) rest st d.
Proof.
  induction pre as [|c pre IH]; intros s i rest st d H; simpl.
  - now rewrite Nat.add_0_r.
  - simpl in H. apply andb_true_iff in H as [Hc H].
    apply not_brace_inv in Hc as [Ho Hcl]. rewrite Ho, Hcl.
    rewrite IH by assumption. f_equal. lia.
Qed.

Lemma A_scan_inside o : forall k s i rest st,
  closes k o = true ->
  Analyzer.scan loads s i (o ++ rest) (Some st) (Z.of_nat (S k))
  = match loads (slice s st (i + length o)) with
    | Return v => Some v
    | Raise _ => Analyzer.scan loads s (i + length o) rest None 0%Z
    end.
Proof.
  induction o as [|c o IH]; intros k s i rest st H; simpl in H; [discriminate|].
  cbn [Analyzer.scan app length].
  destruct (is_char "{" c).
  - replace (Z.of_nat (S k) + 1)%Z with (Z.of_nat (S (S k))) by lia.
    rewrite IH by assumption. now replace (S i + length o)%nat with (i + S (length o))%nat by lia.
  - destruct (is_char "}" c).
    + cbv zeta. replace (Z.of_nat (S k) - 1)%Z with (Z.of_nat k) by lia.
      destruct k as [|k].
      * destruct o; [|discriminate]. simpl.
        now replace (i + 1)%nat with (S i) by lia.
      * replace (Z.of_nat (S k) =? 0)%Z with false by (symmetry; apply Z.eqb_neq; lia).
        rewrite IH by assumption.
        now replace (S i + length o)%nat with (i + S (length o))%nat by lia.
    + rewrite IH by assumption.
      now replace (S i + length o)%nat with (i + S (length o))%nat by lia.
Qed.

Lemma A_scan_span o : forall s i rest,
  is_span o = true ->
  Analyzer.scan loads s i (o ++ rest) None 0%Z
  = match loads (slice s i (i + length o)) with
    | Return v => Some v
    | Raise _ => Analyzer.scan loads s (i + length o) rest None 0%Z
    end.
Proof.
  intros s i rest H. destruct o as [|c o]; [discriminate|].
  simpl in H. apply andb_true_iff in H as [Hc H].
  cbn [Analyzer.scan app length]. rewrite Hc.
  change (0 + 1)%Z with (Z.of_nat 1).
  rewrite A_scan_inside by assumption.
  now replace (S i + length o)%nat with (i + S (length o))%nat by lia.
Qed.
End AnalyzerScan.

Section ScraperScan.
Variable loads : str -> outcome pyval.

Lemma S_scan_noise pre : forall s i rest stack sidx,
  brace_free pre = true ->
  Scraper.scan loads s i (pre ++ rest) stack sidx
  = Scraper.scan loads s (i + length pre) rest stack sidx.
Proof.
  induction pre as [|c pre IH]; intros s i rest stack sidx H; simpl.
  - now rewrite Nat.add_0_r.
  - simpl in H. apply andb_true_iff in H as [Hc H].
    apply not_brace_inv in Hc as [Ho Hcl]. rewrite Ho, Hcl.
    rewrite IH by assumption. f_equal. lia.
Qed.

Lemma S_scan_inside o : forall k s i rest stack st,
  closes k o = true -> length stack = S k ->
  Scraper.scan loads s i (o ++ rest) stack (Z.of_nat st)
  = match loads (slice s st (i + length o)) with
    | Raise JSONDecodeError =>
      Scraper.scan loads s (i + length o) rest [] (Z.of_nat st)
    | r => Some r
    end.
Proof.
  induction o as [|c o IH]; intros k s i rest stack st H L; simpl in H; [discriminate|].
  cbn [Scraper.scan app length].
  destruct stack as [|x stack]; [discriminate|]. injection L as L.
  destruct (is_char "{" c).
  - rewrite (IH (S k)) by (simpl; auto).
    now replace (S i + length o)%nat with (i + S (length o))%nat by lia.
  - destruct (is_char "}" c).
    + destruct k as [|k].
      * destruct o; [|discriminate]. destruct stack; [|discriminate].
        replace (Z.of_nat st =? -1)%Z with false by (symmetry; apply Z.eqb_neq; lia).
        rewrite Nat2Z.id. simpl. now replace (i + 1)%nat with (S i) by lia.
      * destruct stack as [|y stack]; [discriminate|].
        rewrite (IH k) by (simpl; auto).
        now replace (S i + length o)%nat with (i + S (length o))%nat by lia.
    + rewrite (IH k) by (simpl; auto).
      now replace (S i + length o)%nat with (i + S (length o))%nat by lia.
Qed.

Lemma S_scan_span o : forall s i rest sidx,
  is_span o = true ->
  Scraper.scan loads s i (o ++ rest) [] sidx
  = match loads (slice s i (i + length o)) with
    | Raise JSONDecodeError =>
      Scraper.scan loads s (i + length o) rest [] (Z.of_nat i)
    | r => Some r
    end.
Proof.
  intros s i rest sidx H. destruct o as [|c o]; [discriminate|].
  simpl in H. apply andb_true_iff in H as [Hc H].
  cbn [Scraper.scan app length]. rewrite Hc.
  rewrite (S_scan_inside o 0) by auto.
  now replace (S i + length o)%nat with (i + S (length o))%nat by lia.
Qed.

Lemma A_first_valid t v :
  first_valid loads t v ->
  forall p, Analyzer.scan loads (p ++ t) (length p) t None 0%Z = Some v.
Proof.
  induction 1 as [pre o rest v Hpre Ho Hl | pre o rest v Hpre Ho Hl Hfv IH]; intros p.
  - rewrite A_scan_noise, A_scan_span by assumption.
    rewrite <- length_app, app_assoc, slice_app. now rewrite Hl.
  - rewrite A_scan_noise, A_scan_span by assumption.
    rewrite <- length_app, app_assoc, slice_app, Hl.
    rewrite <- length_app.
    replace ((p ++ pre) ++ o ++ rest) with (((p ++ pre) ++ o) ++ rest)
      by now rewrite <- !app_assoc.
    apply IH.
Qed.

Lemma S_first_valid t v :
  first_valid loads t v ->
  forall p sidx,
    Scraper.scan loads (p ++ t) (length p) t [] sidx = Some (Return v).
Proof.
  induction 1 as [pre o rest v Hpre Ho Hl | pre o rest v Hpre Ho Hl Hfv IH];
    intros p sidx.
  - rewrite S_scan_noise, S_scan_span by assumption.
    rewrite <- length_app, app_assoc, slice_app. now rewrite Hl.
  - rewrite S_scan_noise, S_scan_span by assumption.
    rewrite <- length_app, app_assoc, slice_app, Hl.
    rewrite <- length_app.
    replace ((p ++ pre) ++ o ++ rest) with (((p ++ pre) ++ o) ++ rest)
      by now rewrite <- !app_assoc.
    apply IH.
Qed.

Lemma first_valid_nonempty t v : first_valid loads t v -> t <> [].
Proof.
  intros H; destruct H as [pre o rest v _ Ho _ | pre o rest v _ Ho _ _];
    (destruct o; [discriminate|]); destruct pre; discriminate.
Qed.

Lemma A_clean_first_valid w v :
  first_valid loads (Analyzer.prepare w) v ->
  Analyzer.clean_json_string loads w = Return v.
Proof.
  intros H. unfold Analyzer.clean_json_string.
  destruct w as [|c w'].
  - exfalso. now apply (first_valid_nonempty _ _ H).
  - cbv zeta. pose proof (A_first_valid _ v H []) as R. simpl in R. now rewrite R.
Qed.

Lemma S_clean_first_valid w v :
  first_valid loads (Scraper.prepare w) v ->
  loads (Scraper.prepare w) = Raise JSONDecodeError ->
  Scraper.clean_json_string loads w = Return v.
Proof.
  intros H L. unfold Scraper.clean_json_string. cbv zeta. rewrite L.
  pose proof (S_first_valid _ v H [] (-1)%Z) as R. simpl in R. now rewrite R.
Qed.


End ScraperScan.



(** ** Prefixes and occurrences *)

Lemma startswith_app_l m : forall a b,
  startswith m a = true -> startswith m (a ++ b) = true.
Proof.
  induction m as [|x m IH]; intros a b H; [reflexivity|].
  destruct a as [|y a]; [discriminate|]. simpl in *.
  apply andb_true_iff in H as [H1 H2]. rewrite H1. simpl. now apply IH.
Qed.

Lemma startswith_split m : forall s,
  startswith m s = true -> s = m ++ skipn (length m) s.
Proof.
  induction m as [|x m IH]; intros s H; [reflexivity|].
  destruct s as [|y s]; [discriminate|]. simpl in *.
  apply andb_true_iff in H as [H1 H2]. apply N.eqb_eq in H1. subst y.
  f_equal. now apply IH.
Qed.

Lemma startswith_prefix p q : forall s,
  startswith (p ++ q) s = true -> startswith p s = true.
Proof.
  induction p as [|x p IH]; intros s H; [reflexivity|].
  destruct s as [|y s]; [discriminate|]. simpl in *.
  apply andb_true_iff in H as [H1 H2]. rewrite H1. simpl. now apply IH.
Qed.

(** A match that ends before a character foreign to the marker lies
    before that character. *)
Lemma startswith_foreign m c : forall a b,
  ~ In c m -> startswith m (a ++ c :: b) = true -> startswith m a = true.
Proof.
  induction m as [|x m IH]; intros a b Hc H; [reflexivity|].
  destruct a as [|y a]; simpl in H.
  - apply andb_true_iff in H as [H1 _]. apply N.eqb_eq in H1.
    exfalso. apply Hc. now left.
  - simpl. apply andb_true_iff in H as [H1 H2]. rewrite H1. simpl.
    apply (IH a b); [|assumption]. intros Hin. apply Hc. now right.
Qed.

Lemma contains_cons_false p c s :
  contains p (c :: s) = false ->
  startswith p (c :: s) = false /\ contains p s = false.
Proof. simpl. intros H. now apply orb_false_iff in H. Qed.

Lemma contains_prefix_false p q : forall s,
  contains p s = false -> contains (p ++ q) s = false.
Proof.
  induction s as [|c s IH]; intros H.
  - simpl in *. rewrite orb_false_r in *.
    destruct (startswith (p ++ q) []) eqn:E; [|reflexivity].
    apply startswith_prefix in E. congruence.
  - apply contains_cons_false in H as [H1 H2]. simpl.
    rewrite (IH H2), orb_false_r.
    destruct (startswith (p ++ q) (c :: s)) eqn:E; [|reflexivity].
    apply startswith_prefix in E. congruence.
Qed.

(** ** The substitutions that remove the fence markers *)

Lemma sub_fences_skip : forall k s,
  Analyzer.sub_fences k s = Analyzer.sub_fences 0 (skipn k s).
Proof.
  induction k as [|k IH]; intros s; [reflexivity|].
  destruct s as [|c s]; [reflexivity|]. simpl. apply IH.
Qed.

Lemma sub_fences_unfold s :
  Analyzer.sub_fences 0 s
  = if startswith (lit "```json") s then Analyzer.sub_fences 0 (skipn 7 s)
    else if startswith (lit "```") s then Analyzer.sub_fences 0 (skipn 3 s)
    else match s with
         | [] => []
         | c :: r => c :: Analyzer.sub_fences 0 r
         end.
Proof.
  destruct s as [|c r]; [reflexivity|].
  cbn [Analyzer.sub_fences].
  destruct (startswith (lit "```json") (c :: r)); [apply (sub_fences_skip 6)|].
  destruct (startswith (lit "```") (c :: r)); [apply (sub_fences_skip 2)|reflexivity].
Qed.

Lemma sub_fences_no_fence : forall s,
  no_fence s = true -> Analyzer.sub_fences 0 s = s.
Proof.
  unfold no_fence. induction s as [|c s IH]; intros H; [reflexivity|].
  apply negb_true_iff in H. apply contains_cons_false in H as [H1 H2].
  rewrite sub_fences_unfold.
  replace (startswith (lit "```json") (c :: s)) with false.
  - rewrite H1. f_equal. apply IH. now rewrite H2.
  - symmetry. destruct (startswith (lit "```json") (c :: s)) eqn:E; [|reflexivity].
    apply (startswith_prefix (lit "```") (lit "json")) in E. congruence.
Qed.

Lemma sub_marker_ws_absent m : forall s,
  contains m s = false -> Scraper.sub_marker_ws m 0 false s = s.
Proof.
  induction s as [|c s IH]; intros H; [reflexivity|].
  apply contains_cons_false in H as [H1 H2].
  cbn [Scraper.sub_marker_ws andb]. rewrite H1. f_equal. now apply IH.
Qed.

Lemma A_prepare_no_fence s : no_fence s = true -> Analyzer.prepare s = strip s.
Proof. intros H. unfold Analyzer.prepare. now rewrite sub_fences_no_fence. Qed.

Lemma S_prepare_no_fence s : no_fence s = true -> Scraper.prepare s = strip s.
Proof.
  unfold no_fence. intros H. apply negb_true_iff in H.
  unfold Scraper.prepare.
  rewrite (sub_marker_ws_absent (lit "```json")).
  - now rewrite sub_marker_ws_absent.
  - now apply (contains_prefix_false (lit "```") (lit "json")).
Qed.

(** ** A single span *)





(** ** Fences around a span *)

Lemma startswith_length m : forall s,
  startswith m s = true -> (length m <= length s)%nat.
Proof.
  induction m as [|x m IH]; intros s H; simpl; [lia|].
  destruct s as [|y s]; [discriminate|]. simpl in *.
  apply andb_true_iff in H as [_ H]. apply IH in H. lia.
Qed.

Lemma startswith_foreign_iff m c a b :
  ~ In c m -> startswith m (a ++ c :: b) = startswith m a.
Proof.
  intros Hc. destruct (startswith m a) eqn:E.
  - now apply startswith_app_l.
  - destruct (startswith m (a ++ c :: b)) eqn:E'; [|reflexivity].
    apply startswith_foreign in E'; [congruence|assumption].
Qed.

(** No match of the substitution extends over a character that occurs in
    neither marker. *)
Lemma sub_fences_foreign c b : ~ In c (lit "```json") ->
  forall a k, (k <= length a)%nat ->
    Analyzer.sub_fences k (a ++ c :: b)
    = Analyzer.sub_fences k a ++ c :: Analyzer.sub_fences 0 b.
Proof.
  intros Hc.
  assert (Hc' : ~ In c (lit "```")).
  { intros H. apply Hc. simpl in *. tauto. }
  induction a as [|x a IH]; intros k Hk.
  - assert (k = O) by (simpl in Hk; lia). subst k.
    cbn [app Analyzer.sub_fences].
    replace (startswith (lit "```json") (c :: b)) with false
      by (symmetry; exact (startswith_foreign_iff _ c [] b Hc)).
    replace (startswith (lit "```") (c :: b)) with false
      by (symmetry; exact (startswith_foreign_iff _ c [] b Hc')).
    reflexivity.
  - destruct k as [|k].
    + cbn [app Analyzer.sub_fences].
      change (x :: a ++ c :: b) with ((x :: a) ++ c :: b).
      rewrite (startswith_foreign_iff _ c (x :: a) b Hc).
      rewrite (startswith_foreign_iff _ c (x :: a) b Hc').
      destruct (startswith (lit "```json") (x :: a)) eqn:E.
      { apply startswith_length in E. apply IH. simpl in E. lia. }
      destruct (startswith (lit "```") (x :: a)) eqn:E'.
      { apply startswith_length in E'. apply IH. simpl in E'. lia. }
      simpl. f_equal. apply IH. lia.
    + cbn [app Analyzer.sub_fences]. apply IH. simpl in Hk. lia.
Qed.

Lemma forallb_sub_fences (p : char -> bool) : forall s k,
  forallb p s = true -> forallb p (Analyzer.sub_fences k s) = true.
Proof.
  induction s as [|c s IH]; intros k H; [reflexivity|].
  simpl in H. apply andb_true_iff in H as [Hc H].
  cbn [Analyzer.sub_fences]. destruct k as [|k]; [|now apply IH].
  destruct (startswith (lit "```json") (c :: s)); [now apply IH|].
  destruct (startswith (lit "```") (c :: s)); [now apply IH|].
  simpl. rewrite Hc. now apply IH.
Qed.

(** ** Trimming *)

Lemma lstrip_app_head c b : isspace c = false ->
  forall a, lstrip (a ++ c :: b) = lstrip a ++ c :: b.
Proof.
  intros Hc. induction a as [|x a IH]; simpl.
  - now rewrite Hc.
  - destruct (isspace x); [apply IH|reflexivity].
Qed.

Lemma rstrip_app_last c a b : isspace c = false ->
  rstrip (a ++ c :: b) = a ++ c :: rstrip b.
Proof.
  intros Hc. unfold rstrip.
  replace (rev (a ++ c :: b)) with (rev b ++ c :: rev a)
    by (rewrite rev_app_distr; simpl; now rewrite <- app_assoc).
  rewrite lstrip_app_head by assumption.
  rewrite rev_app_distr. simpl. rewrite rev_involutive.
  now rewrite <- app_assoc.
Qed.

Lemma forallb_lstrip (p : char -> bool) : forall s,
  forallb p s = true -> forallb p (lstrip s) = true.
Proof.
  induction s as [|c s IH]; intros H; [reflexivity|].
  simpl. destruct (isspace c); [|assumption].
  simpl in H. apply andb_true_iff in H as [_ H]. now apply IH.
Qed.

Lemma forallb_rev (p : char -> bool) (s : str) :
  forallb p (rev s) = forallb p s.
Proof.
  induction s as [|c s IH]; [reflexivity|].
  simpl. rewrite forallb_app, IH. simpl. rewrite andb_true_r. apply andb_comm.
Qed.

Lemma forallb_rstrip (p : char -> bool) (s : str) :
  forallb p s = true -> forallb p (rstrip s) = true.
Proof.
  intros H. unfold rstrip. rewrite forallb_rev. apply forallb_lstrip.
  now rewrite forallb_rev.
Qed.

Lemma closes_last : forall o k,
  closes k o = true -> exists o', o = o' ++ [ord "}"].
Proof.
  induction o as [|c o IH]; intros k H; [discriminate|]. simpl in H.
  assert (G : forall k', closes k' o = true -> exists o', c :: o = o' ++ [ord "}"]).
  { intros k' H'. destruct (IH k' H') as [o' ->]. now exists (c :: o'). }
  destruct (is_char "{" c); [eauto|].
  destruct (is_char "}" c) eqn:E; [|eauto].
  destruct k; [|eauto].
  destruct o; [|discriminate]. apply is_char_true in E. subst c. now exists [].
Qed.

Lemma span_shape o :
  is_span o = true ->
  (exists m, o = ord "{" :: m) /\ (exists m, o = m ++ [ord "}"]).
Proof.
  intros H. destruct o as [|c o]; [discriminate|].
  simpl in H. apply andb_true_iff in H as [Hc H].
  apply is_char_true in Hc. subst c. split; [now exists o|].
  destruct (closes_last _ _ H) as [o' ->]. now exists (ord "{" :: o').
Qed.

Lemma strip_around_span a o b :
  is_span o = true -> strip (a ++ o ++ b) = lstrip a ++ o ++ rstrip b.
Proof.
  intros H. destruct (span_shape o H) as [[m Hm] [m' Hm']].
  unfold strip.
  assert (E1 : lstrip (a ++ o ++ b) = lstrip a ++ o ++ b).
  { rewrite Hm. simpl app. now apply lstrip_app_head. }
  rewrite E1, Hm'.
  replace (lstrip a ++ (m' ++ [ord "}"]) ++ b) with ((lstrip a ++ m') ++ ord "}" :: b)
    by (now rewrite <- !app_assoc).
  rewrite rstrip_app_last by reflexivity.
  now rewrite <- !app_assoc.
Qed.

(** The text that [analyzer.py] scans when a span is fenced. *)
Lemma A_prepare_fenced pre body post :
  brace_free pre = true -> is_span body = true -> no_fence body = true ->
  exists P R,
    Analyzer.prepare (pre ++ lit "```json" ++ [10] ++ body ++ [10] ++ lit "```" ++ post)
    = P ++ body ++ R
    /\ brace_free P = true.
Proof.
  intros Hpre Hsp Hnf.
  assert (F : ~ In 10 (lit "```json")).
  { simpl. intros H. repeat (destruct H as [H|H]; [discriminate|]). exact H. }
  exists (lstrip (Analyzer.sub_fences 0 (pre ++ lit "```json") ++ [10])),
         (rstrip (10 :: Analyzer.sub_fences 0 (lit "```" ++ post))).
  split.
  - unfold Analyzer.prepare.
    replace (pre ++ lit "```json" ++ [10] ++ body ++ [10] ++ lit "```" ++ post)
      with ((pre ++ lit "```json") ++ 10 :: (body ++ 10 :: (lit "```" ++ post)))
      by now rewrite <- !app_assoc.
    rewrite (sub_fences_foreign 10 _ F) by lia.
    rewrite (sub_fences_foreign 10 _ F) by lia.
    rewrite (sub_fences_no_fence body) by assumption.
    rewrite <- (strip_around_span _ body) by assumption.
    f_equal. now rewrite <- !app_assoc.
  - apply forallb_lstrip. unfold brace_free in *.
    rewrite forallb_app. apply andb_true_iff. split; [|reflexivity].
    apply forallb_sub_fences. rewrite forallb_app, Hpre. reflexivity.
Qed.

(** C4, as amended.  A text [body] that parses strictly to [obj], is one
    candidate span and holds no fence marker, put in a [```json] fence
    with prose around it, is recovered as [obj] by [analyzer.py], provided
    the prose before the fence holds no brace; the prose after it is
    arbitrary.  The concrete scenario of the specification is the
    witness. *)
Theorem fence_round_trip (loads : str -> outcome pyval) (pre body post : str) (obj : pyval) :
  loads body = Return obj ->
  is_span body = true ->
  no_fence body = true ->
  brace_free pre = true ->
  Analyzer.clean_json_string loads (fenced pre body post) = Return obj.
Proof.
  intros L Hsp Hnf Hpre.
  destruct (A_prepare_fenced pre body post Hpre Hsp Hnf) as (P & R & E & HP).
  apply A_clean_first_valid. unfold fenced. rewrite E. now apply fv_here.
Qed.

Lemma fence_round_trip_witness :
  Analyzer.clean_json_string Json.loads scenario_text = Return scenario_record.
Proof.
  apply (fence_round_trip Json.loads scenario_prose scenario_body
           ([10] ++ lit "Fin.") scenario_record);
    vm_compute; reflexivity.
Defined.

(** C4 fails as stated.  With [json.dumps(obj)] fenced and prose around
    it, the recovered value is not [obj] when the prose holds a span of
    its own, when a string of [obj] holds a fence marker, or when a
    string of [obj] holds an unmatched brace. *)
Lemma fence_round_trip_fails :
  (Json.loads (txt "{'a': 1}") = Return (PyDict [(lit "a", PyInt 1)])
   /\ Analyzer.clean_json_string Json.loads
        (fenced (lit "Usa {} aqui:" ++ [10]) (txt "{'a': 1}") ([10] ++ lit "Fin."))
      = Return (PyDict []))
  /\ (Json.loads (txt "{'a': '```'}") = Return (PyDict [(lit "a", PyStr (lit "```"))])
      /\ Analyzer.clean_json_string Json.loads
           (fenced (lit "Resultado:" ++ [10]) (txt "{'a': '```'}") ([10] ++ lit "Fin."))
         = Return (PyDict [(lit "a", PyStr [])]))
  /\ (Json.loads (txt "{'a': '}'}") = Return (PyDict [(lit "a", PyStr (lit "}"))])
      /\ Analyzer.clean_json_string Json.loads
           (fenced (lit "Resultado:" ++ [10]) (txt "{'a': '}'}") ([10] ++ lit "Fin."))
         = Return PyNone).
Proof. repeat split; vm_compute; reflexivity. Qed.

(** ** The fence stripper removes markers only *)

Lemma strips_markers_sub_fences_bounded : forall n s,
  (length s <= n)%nat -> strips_markers s (Analyzer.sub_fences 0 s).
Proof.
  induction n as [|n IH]; intros s Hn.
  - destruct s; [constructor | simpl in Hn; lia].
  - rewrite sub_fences_unfold.
    destruct (startswith (lit "```json") s) eqn:E.
    { pose proof (startswith_split _ _ E) as Hs. rewrite Hs at 1.
      apply sm_tagged, IH. rewrite Hs in Hn.
      rewrite length_app in Hn. simpl in Hn. simpl. lia. }
    destruct (startswith (lit "```") s) eqn:E'.
    { pose proof (startswith_split _ _ E') as Hs. rewrite Hs at 1.
      apply sm_bare, IH. rewrite Hs in Hn.
      rewrite length_app in Hn. simpl in Hn. simpl. lia. }
    destruct s as [|c r]; constructor. apply IH. simpl in Hn. lia.
Qed.

Lemma strips_markers_sub_fences s : strips_markers s (Analyzer.sub_fences 0 s).
Proof. now apply (strips_markers_sub_fences_bounded (length s)). Qed.

Lemma sub_marker_ws_skip m : forall n b s,
  Scraper.sub_marker_ws m (S n) b s
  = Scraper.sub_marker_ws m 0 true (skipn (S n) s).
Proof.
  induction n as [|n IH]; intros b s; destruct s as [|c r]; try reflexivity.
  cbn [Scraper.sub_marker_ws skipn]. apply IH.
Qed.

Lemma sub_marker_ws_match m x m' : forall r,
  m = x :: m' ->
  Scraper.sub_marker_ws m (length m - 1) true r
  = Scraper.sub_marker_ws m 0 true (skipn (length m - 1) r).
Proof.
  intros r ->.
  replace (length (x :: m') - 1)%nat with (length m') by (simpl; lia).
  destruct (length m') as [|n]; [reflexivity|].
  apply sub_marker_ws_skip.
Qed.

Lemma strips_marker_ws_sub_bounded m x m' : m = x :: m' ->
  forall n s b, (length s <= n)%nat ->
    strips_marker_ws m b s (Scraper.sub_marker_ws m 0 b s).
Proof.
  intros Hm. induction n as [|n IH]; intros s b Hn.
  - destruct s; [constructor | simpl in Hn; lia].
  - destruct s as [|c r]; [constructor|].
    cbn [Scraper.sub_marker_ws].
    destruct (b && isspace c) eqn:Ews.
    { apply andb_true_iff in Ews as [-> Hc].
      apply smw_space; [assumption|]. apply IH. simpl in Hn. lia. }
    destruct (startswith m (c :: r)) eqn:E.
    { rewrite (sub_marker_ws_match m x m' r Hm).
      pose proof (startswith_split _ _ E) as Hs.
      assert (Hr : skipn (length m - 1) r = skipn (length m) (c :: r)).
      { rewrite Hm. replace (length (x :: m') - 1)%nat with (length m') by (simpl; lia).
        reflexivity. }
      rewrite Hr. rewrite Hs at 1. apply smw_marker, IH.
      rewrite Hs in Hn. rewrite length_app, Hm in Hn. simpl in Hn.
      rewrite Hm. simpl length. lia. }
    apply smw_keep, IH. simpl in Hn. lia.
Qed.

Lemma strips_marker_ws_sub m x m' s :
  m = x :: m' -> strips_marker_ws m false s (Scraper.sub_marker_ws m 0 false s).
Proof. intros Hm. now apply (strips_marker_ws_sub_bounded m x m' Hm (length s)). Qed.

(** C8, as amended.  The stripper of [analyzer.py] removes occurrences of
    the two fence markers and nothing else, then trims.  Each of the two
    substitutions of [scraper_ia_pdf_a_json.py] removes occurrences of
    its marker and the whitespace that follows them, and nothing else;
    the result is trimmed.  A text without a triple backtick is only
    trimmed, by both. *)
Theorem fence_stripper_removes_markers :
  only_markers_removed Analyzer.prepare
  /\ (forall s, exists u1 u2,
         strips_marker_ws (lit "```json") false s u1
         /\ strips_marker_ws (lit "```") false u1 u2
         /\ Scraper.prepare s = strip u2)
  /\ (forall s, no_fence s = true ->
        Analyzer.prepare s = strip s /\ Scraper.prepare s = strip s).
Proof.
  split; [|split].
  - intros s. exists (Analyzer.sub_fences 0 s). split; [|reflexivity].
    apply strips_markers_sub_fences.
  - intros s.
    exists (Scraper.sub_marker_ws (lit "```json") 0 false s),
           (Scraper.sub_marker_ws (lit "```") 0 false
              (Scraper.sub_marker_ws (lit "```json") 0 false s)).
    split; [|split; [|reflexivity]].
    + now apply (strips_marker_ws_sub _ 96 (lit "``json")).
    + now apply (strips_marker_ws_sub _ 96 (lit "``")).
  - intros s H. split; [now apply A_prepare_no_fence | now apply S_prepare_no_fence].
Qed.

Lemma fence_stripper_removes_markers_witness :
  Analyzer.prepare (txt "  {'a': '` x'} ") = txt "{'a': '` x'}"
  /\ Scraper.prepare (txt "  {'a': '` x'} ") = txt "{'a': '` x'}".
Proof.
  destruct fence_stripper_removes_markers as (_ & _ & H).
  destruct (H (txt "  {'a': '` x'} ") eq_refl) as [HA HS].
  split; [rewrite HA | rewrite HS]; vm_compute; reflexivity.
Defined.

Ltac invert_strips :=
  match goal with
  | H : strips_markers _ _ |- _ =>
    inversion H; clear H; subst;
    repeat match goal with
           | E : lit _ ++ _ = _ |- _ => cbn in E; try discriminate E; injection E as E; subst
           end
  end.

(** C8 fails as stated for [scraper_ia_pdf_a_json.py]: on the text
    [a``` b] it also removes the blank after the marker, which is neither
    a marker nor whitespace around the text. *)
Lemma scraper_strips_more_than_markers :
  Scraper.prepare (lit "a``` b") = lit "ab"
  /\ Analyzer.prepare (lit "a``` b") = lit "a b"
  /\ ~ only_markers_removed Scraper.prepare.
Proof.
  split; [vm_compute; reflexivity|]. split; [vm_compute; reflexivity|].
  intros H. destruct (H (lit "a``` b")) as [u [Hu E]].
  vm_compute in Hu. vm_compute in E.
  repeat invert_strips; vm_compute in E; discriminate E.
Qed.

(** ** The two scan loops side by side *)


Section Agreement.
Variable loads : str -> outcome pyval.
Hypothesis loads_raises : forall x e, loads x = Raise e -> e = JSONDecodeError.




End Agreement.



(** ** Failure *)

Lemma slice_all (t : str) : slice t 0 (length t) = t.
Proof. unfold slice. rewrite Nat.sub_0_r. simpl. apply firstn_all. Qed.

Lemma forallb_sub_marker_ws (p : char -> bool) m : forall s k b,
  forallb p s = true -> forallb p (Scraper.sub_marker_ws m k b s) = true.
Proof.
  induction s as [|c s IH]; intros k b H; [reflexivity|].
  simpl in H. apply andb_true_iff in H as [Hc H].
  cbn [Scraper.sub_marker_ws]. destruct k as [|k]; [|now apply IH].
  destruct (b && isspace c); [now apply IH|].
  destruct (startswith m (c :: s)); [now apply IH|].
  simpl. rewrite Hc. now apply IH.
Qed.

Lemma forallb_strip (p : char -> bool) (s : str) :
  forallb p s = true -> forallb p (strip s) = true.
Proof. intros H. unfold strip. now apply forallb_rstrip, forallb_lstrip. Qed.

Lemma A_prepare_forallb (p : char -> bool) (w : str) :
  forallb p w = true -> forallb p (Analyzer.prepare w) = true.
Proof. intros H. unfold Analyzer.prepare. now apply forallb_strip, forallb_sub_fences. Qed.

Lemma S_prepare_forallb (p : char -> bool) (w : str) :
  forallb p w = true -> forallb p (Scraper.prepare w) = true.
Proof.
  intros H. unfold Scraper.prepare.
  now apply forallb_strip, forallb_sub_marker_ws, forallb_sub_marker_ws.
Qed.

Section Failure.
Variable loads : str -> outcome pyval.

Lemma A_scan_no_closing : forall rest s i st d,
  no_closing rest = true -> Analyzer.scan loads s i rest st d = None.
Proof.
  induction rest as [|c rest IH]; intros s i st d H; [reflexivity|].
  simpl in H. apply andb_true_iff in H as [Hc H]. apply negb_true_iff in Hc.
  cbn [Analyzer.scan]. rewrite Hc.
  destruct (is_char "{" c); now apply IH.
Qed.

Lemma S_scan_no_closing : forall rest s i stack sidx,
  no_closing rest = true -> Scraper.scan loads s i rest stack sidx = None.
Proof.
  induction rest as [|c rest IH]; intros s i stack sidx H; [reflexivity|].
  simpl in H. apply andb_true_iff in H as [Hc H]. apply negb_true_iff in Hc.
  cbn [Scraper.scan]. rewrite Hc.
  destruct (is_char "{" c); now apply IH.
Qed.

(** What a scan loop returns is the strict parse of a slice. *)
Lemma A_scan_is_parse : forall rest s i st d v,
  Analyzer.scan loads s i rest st d = Some v ->
  exists a b, loads (slice s a b) = Return v.
Proof.
  induction rest as [|c rest IH]; intros s i st d v H; [discriminate|].
  cbn [Analyzer.scan] in H.
  destruct (is_char "{" c); [now apply IH in H|].
  destruct (is_char "}" c); [|now apply IH in H].
  cbv zeta in H. destruct (d - 1 =? 0)%Z; [|now apply IH in H].
  destruct st as [st|]; [|now apply IH in H].
  destruct (loads (slice s st (i + 1))) as [v'|e] eqn:L; [|now apply IH in H].
  injection H as ->. now exists st, (i + 1)%nat.
Qed.

Lemma S_scan_is_parse : forall rest s i stack sidx o,
  Scraper.scan loads s i rest stack sidx = Some o ->
  exists a b, loads (slice s a b) = o.
Proof.
  induction rest as [|c rest IH]; intros s i stack sidx o H; [discriminate|].
  cbn [Scraper.scan] in H.
  destruct (is_char "{" c); [now apply IH in H|].
  destruct (is_char "}" c); [|now apply IH in H].
  destruct stack as [|x stack]; [now apply IH in H|].
  destruct stack as [|y stack]; [|now apply IH in H].
  destruct (sidx =? -1)%Z; [now apply IH in H|].
  destruct (loads (slice s (Z.to_nat sidx) (i + 1))) as [v'|e] eqn:L.
  - injection H as <-. now exists (Z.to_nat sidx), (i + 1)%nat.
  - destruct e; try (injection H as <-; now exists (Z.to_nat sidx), (i + 1)%nat).
    now apply IH in H.
Qed.

(** C5, as amended.  No routine classifies a failure.  Whatever
    [analyzer.py] returns is [None] or the strict parse of a slice of
    the cleaned text; whatever the scraper produces is
    [JSONDecodeError] or the outcome of the parser on such a slice: no
    partial object is made up.  A text without a closing brace that
    does not parse as a whole, an opened and never closed object in
    particular, yields [None] from the one and [JSONDecodeError] from
    the other. *)
Theorem failures_are_untyped (w : str) :
  (Analyzer.clean_json_string loads w = Return PyNone
   \/ exists a b,
       loads (slice (Analyzer.prepare w) a b) = Analyzer.clean_json_string loads w)
  /\ (Scraper.clean_json_string loads w = Raise JSONDecodeError
      \/ exists a b,
          loads (slice (Scraper.prepare w) a b) = Scraper.clean_json_string loads w)
  /\ (no_closing w = true ->
      (forall v, loads (Analyzer.prepare w) <> Return v) ->
      Analyzer.clean_json_string loads w = Return PyNone)
  /\ (no_closing w = true ->
      loads (Scraper.prepare w) = Raise JSONDecodeError ->
      Scraper.clean_json_string loads w = Raise JSONDecodeError).
Proof.
  repeat split.
  - unfold Analyzer.clean_json_string. destruct w as [|c w']; [now left|].
    cbv zeta. set (t := Analyzer.prepare (c :: w')).
    destruct (Analyzer.scan loads t 0 t None 0%Z) as [v|] eqn:E.
    + right. destruct (A_scan_is_parse _ _ _ _ _ _ E) as (a & b & L). now exists a, b.
    + destruct (loads t) as [v|e] eqn:L; [|now left].
      right. exists 0%nat, (length t). now rewrite slice_all.
  - unfold Scraper.clean_json_string. cbv zeta. set (t := Scraper.prepare w).
    assert (W : exists a b, loads (slice t a b) = loads t)
      by (exists 0%nat, (length t); now rewrite slice_all).
    destruct (loads t) as [v|e] eqn:L; [now right|].
    destruct e; try (now right).
    destruct (Scraper.scan loads t 0 t [] (-1)%Z) as [o|] eqn:E; [|now left].
    right. exact (S_scan_is_parse _ _ _ _ _ _ E).
  - intros H L. unfold Analyzer.clean_json_string. destruct w as [|c w']; [reflexivity|].
    cbv zeta. rewrite A_scan_no_closing by (now apply A_prepare_forallb).
    destruct (loads (Analyzer.prepare (c :: w'))) as [v|e] eqn:E; [|reflexivity].
    now destruct (L v).
  - intros H L. unfold Scraper.clean_json_string. cbv zeta. rewrite L.
    now rewrite S_scan_no_closing by (now apply S_prepare_forallb).
Qed.

(** C6, as amended.  [analyzer.py] returns on every text, whatever the
    parser raises, and its answer is [None] when no slice of the cleaned
    text is valid JSON.  [scraper_ia_pdf_a_json.py] raises
    [JSONDecodeError] in that case. *)
Theorem analyzer_never_raises (w : str) :
  (exists v, Analyzer.clean_json_string loads w = Return v)
  /\ ((forall a b v, loads (slice (Analyzer.prepare w) a b) <> Return v) ->
      Analyzer.clean_json_string loads w = Return PyNone)
  /\ ((forall a b, loads (slice (Scraper.prepare w) a b) = Raise JSONDecodeError) ->
      Scraper.clean_json_string loads w = Raise JSONDecodeError).
Proof.
  split; [|split].
  - unfold Analyzer.clean_json_string. destruct w as [|c w']; [now exists PyNone|].
    cbv zeta. destruct (Analyzer.scan _ _ _ _ _ _) as [v|]; [now exists v|].
    destruct (loads _) as [v|e]; [now exists v | now exists PyNone].
  - intros H. unfold Analyzer.clean_json_string. destruct w as [|c w']; [reflexivity|].
    cbv zeta. set (t := Analyzer.prepare (c :: w')) in *.
    destruct (Analyzer.scan loads t 0 t None 0%Z) as [v|] eqn:E.
    + destruct (A_scan_is_parse _ _ _ _ _ _ E) as (a & b & L).
      now destruct (H a b v).
    + destruct (loads t) as [v|e] eqn:L; [|reflexivity].
      rewrite <- (slice_all t) in L. now destruct (H 0%nat (length t) v).
  - intros H. unfold Scraper.clean_json_string. cbv zeta.
    set (t := Scraper.prepare w) in *.
    pose proof (H 0%nat (length t)) as L. rewrite slice_all in L. rewrite L.
    destruct (Scraper.scan loads t 0 t [] (-1)%Z) as [o|] eqn:E; [|reflexivity].
    destruct (S_scan_is_parse _ _ _ _ _ _ E) as (a & b & <-). apply H.
Qed.

End Failure.

Lemma failures_are_untyped_witness :
  Analyzer.clean_json_string Json.loads (txt "{'a': 1") = Return PyNone
  /\ Scraper.clean_json_string Json.loads (txt "{'a': 1") = Raise JSONDecodeError.
Proof.
  destruct (failures_are_untyped Json.loads (txt "{'a': 1")) as (_ & _ & HA & HS).
  split.
  - apply HA; [reflexivity|]. intros v. vm_compute. discriminate.
  - apply HS; vm_compute; reflexivity.
Defined.

Lemma slices_of_one (c : char) (a b : nat) :
  slice [c] a b = [] \/ slice [c] a b = [c].
Proof.
  unfold slice. destruct a as [|a].
  - destruct (b - 0)%nat as [|n]; [now left|]. right. simpl. now destruct n.
  - left. simpl. rewrite skipn_nil. apply firstn_nil.
Qed.

Lemma analyzer_never_raises_witness :
  Analyzer.clean_json_string Json.loads (lit "{") = Return PyNone
  /\ Scraper.clean_json_string Json.loads (lit "{") = Raise JSONDecodeError.
Proof.
  destruct (analyzer_never_raises Json.loads (lit "{")) as (_ & HA & HS).
  split.
  - apply HA. intros a b v.
    change (Analyzer.prepare (lit "{")) with [123].
    destruct (slices_of_one 123 a b) as [E | E]; unfold char in E; rewrite E;
      vm_compute; discriminate.
  - apply HS. intros a b.
    change (Scraper.prepare (lit "{")) with [123].
    destruct (slices_of_one 123 a b) as [E | E]; unfold char in E; rewrite E;
      vm_compute; reflexivity.
Defined.

(** C5 fails as stated.  A text without a brace, an opened and never
    closed brace, and a balanced span that is not JSON are three causes
    in the taxonomy of the specification; the analyzer answers [None] to
    the three and the scraper [JSONDecodeError], so that no reading of
    the outcome gives the cause. *)
Lemma failures_are_not_typed :
  (Analyzer.clean_json_string Json.loads (lit "hola") = Return PyNone
   /\ Analyzer.clean_json_string Json.loads (lit "{") = Return PyNone
   /\ Analyzer.clean_json_string Json.loads (lit "{a: 1,}") = Return PyNone)
  /\ (Scraper.clean_json_string Json.loads (lit "hola") = Raise JSONDecodeError
      /\ Scraper.clean_json_string Json.loads (lit "{") = Raise JSONDecodeError
      /\ Scraper.clean_json_string Json.loads (lit "{a: 1,}") = Raise JSONDecodeError)
  /\ (cause (lit "hola") = NoJsonFound
      /\ cause (lit "{") = UnbalancedBraces
      /\ cause (lit "{a: 1,}") = MalformedJson)
  /\ ~ typed_failures (Analyzer.clean_json_string Json.loads) Analyzer.prepare
  /\ ~ typed_failures (Scraper.clean_json_string Json.loads) Scraper.prepare.
Proof.
  split; [repeat split; vm_compute; reflexivity|].
  split; [repeat split; vm_compute; reflexivity|].
  split; [repeat split; vm_compute; reflexivity|].
  split.
  - intros [classify H].
    assert (A1 : Analyzer.clean_json_string Json.loads (lit "hola") = Return PyNone)
      by (vm_compute; reflexivity).
    assert (A2 : Analyzer.clean_json_string Json.loads (lit "{") = Return PyNone)
      by (vm_compute; reflexivity).
    pose proof (H _ (or_introl A1)) as H1. pose proof (H _ (or_introl A2)) as H2.
    rewrite A1 in H1. rewrite A2 in H2.
    change (cause (Analyzer.prepare (lit "hola"))) with NoJsonFound in H1.
    change (cause (Analyzer.prepare (lit "{"))) with UnbalancedBraces in H2.
    congruence.
  - intros [classify H].
    assert (A1 : Scraper.clean_json_string Json.loads (lit "hola") = Raise JSONDecodeError)
      by (vm_compute; reflexivity).
    assert (A2 : Scraper.clean_json_string Json.loads (lit "{") = Raise JSONDecodeError)
      by (vm_compute; reflexivity).
    pose proof (H _ (or_intror A1)) as H1. pose proof (H _ (or_intror A2)) as H2.
    rewrite A1 in H1. rewrite A2 in H2.
    change (cause (Scraper.prepare (lit "hola"))) with NoJsonFound in H1.
    change (cause (Scraper.prepare (lit "{"))) with UnbalancedBraces in H2.
    congruence.
Qed.

(** C6 fails as stated for [scraper_ia_pdf_a_json.py]: absent or
    malformed JSON makes it raise. *)
Lemma scraper_raises :
  Scraper.clean_json_string Json.loads (lit "sin datos") = Raise JSONDecodeError
  /\ Scraper.clean_json_string Json.loads (lit "{a: 1,}") = Raise JSONDecodeError
  /\ Scraper.clean_json_string Json.loads [] = Raise JSONDecodeError.
Proof. repeat split; vm_compute; reflexivity. Qed.

(** C10.  The fallback parse of the whole text returns what the text
    denotes: a [list] for [[1, 2]], an [int] for [42]; in general, on a
    text without a closing brace the value of the strict parse of the
    cleaned text, of whatever type. *)
Theorem fallback_returns_non_mapping :
  Analyzer.clean_json_string Json.loads (lit "[1, 2]") = Return (PyList [PyInt 1; PyInt 2])
  /\ Analyzer.clean_json_string Json.loads (lit "42") = Return (PyInt 42)
  /\ forall (loads : str -> outcome pyval) (w : str) (v : pyval),
      w <> [] -> no_closing w = true ->
      loads (Analyzer.prepare w) = Return v ->
      Analyzer.clean_json_string loads w = Return v.
Proof.
  split; [vm_compute; reflexivity|]. split; [vm_compute; reflexivity|].
  intros loads w v Hw H L. unfold Analyzer.clean_json_string.
  destruct w as [|c w']; [contradiction|]. cbv zeta.
  rewrite A_scan_no_closing by (now apply A_prepare_forallb). now rewrite L.
Qed.

Lemma fallback_returns_non_mapping_witness :
  Analyzer.clean_json_string Json.loads (lit " true ") = Return (PyBool true).
Proof.
  destruct fallback_returns_non_mapping as (_ & _ & H).
  apply H; [discriminate | reflexivity | vm_compute; reflexivity].
Defined.

(** ** What the three patterns match *)

Section MatcherFacts.
Context {A : Type}.




End MatcherFacts.


Lemma stops_tail (p : char -> bool) (ws t : str) :
  forallb (fun c => negb (p c)) ws = true -> stops p t -> stops p (ws ++ t).
Proof.
  destruct ws as [|c ws]; simpl; [auto|].
  intros H _. apply andb_true_iff in H as [H _]. now apply negb_true_iff.
Qed.










Section MatcherSuffix.
Context {A : Type}.




End MatcherSuffix.








(** ** The numeric normalizer *)

(** The contract of [to_number_simple] on [None], on a [float], on an
    [int] in the range of [float], and on a [str]: the branch taken and
    the value returned. *)
Lemma to_number_simple_contract :
  Cleaner.to_number_simple Cleaner.SNone = Return PyNone
  /\ (forall f, Cleaner.to_number_simple (Cleaner.SFloat f) = Return (PyFloat f))
  /\ (forall z, (Z.abs z < 2 ^ 1024 - 2 ^ 970)%Z ->
        Cleaner.to_number_simple (Cleaner.SInt z)
        = Return (PyFloat (finite (inject_Z z))))
  /\ (forall s, Cleaner.sentinel (strip (Cleaner.remove_commas (Cleaner.lower s))) = true ->
        Cleaner.to_number_simple (Cleaner.SStr s) = Return PyNone)
  /\ (forall s g,
        Cleaner.sentinel (strip (Cleaner.remove_commas (Cleaner.lower s))) = false ->
        Cleaner.search (Cleaner.number_then (lit "mill"))
                       (strip (Cleaner.remove_commas (Cleaner.lower s))) = Some g ->
        Cleaner.to_number_simple (Cleaner.SStr s)
        = Return (PyFloat (Cleaner.float_mul (Cleaner.float_of_group g) 1000000)))
  /\ (forall s g,
        Cleaner.sentinel (strip (Cleaner.remove_commas (Cleaner.lower s))) = false ->
        Cleaner.search (Cleaner.number_then (lit "mill"))
                       (strip (Cleaner.remove_commas (Cleaner.lower s))) = None ->
        Cleaner.search (Cleaner.number_then (lit "mil"))
                       (strip (Cleaner.remove_commas (Cleaner.lower s))) = Some g ->
        Cleaner.to_number_simple (Cleaner.SStr s)
        = Return (PyFloat (Cleaner.float_mul (Cleaner.float_of_group g) 1000)))
  /\ (forall s g,
        Cleaner.sentinel (strip (Cleaner.remove_commas (Cleaner.lower s))) = false ->
        Cleaner.search (Cleaner.number_then (lit "mill"))
                       (strip (Cleaner.remove_commas (Cleaner.lower s))) = None ->
        Cleaner.search (Cleaner.number_then (lit "mil"))
                       (strip (Cleaner.remove_commas (Cleaner.lower s))) = None ->
        Cleaner.search Cleaner.number_alone
                       (strip (Cleaner.remove_commas (Cleaner.lower s))) = Some g ->
        Cleaner.to_number_simple (Cleaner.SStr s)
        = Return (PyFloat (Cleaner.float_of_group g)))
  /\ (forall s, exists r,
        Cleaner.to_number_simple (Cleaner.SStr s) = Return r
        /\ (r = PyNone \/ exists f, r = PyFloat f)).
Proof.
  split; [reflexivity|]. split; [reflexivity|]. split.
  { intros z Hz. unfold Cleaner.to_number_simple, Cleaner.float_of_int.
    apply Z.ltb_lt in Hz. now rewrite Hz. }
  split.
  { intros s H. unfold Cleaner.to_number_simple. now rewrite H. }
  split.
  { intros s g H M. unfold Cleaner.to_number_simple. now rewrite H, M. }
  split.
  { intros s g H M K. unfold Cleaner.to_number_simple. now rewrite H, M, K. }
  split.
  { intros s g H M K D. unfold Cleaner.to_number_simple. now rewrite H, M, K, D. }
  intros s. unfold Cleaner.to_number_simple.
  set (t := strip (Cleaner.remove_commas (Cleaner.lower s))).
  destruct (Cleaner.sentinel t); [exists PyNone; auto|].
  destruct (Cleaner.search (Cleaner.number_then (lit "mill")) t);
    [eexists; split; [reflexivity|right; eexists; reflexivity]|].
  destruct (Cleaner.search (Cleaner.number_then (lit "mil")) t);
    [eexists; split; [reflexivity|right; eexists; reflexivity]|].
  destruct (Cleaner.search Cleaner.number_alone t);
    [eexists; split; [reflexivity|right; eexists; reflexivity]|].
  exists PyNone; auto.
Qed.

(** The examples of the specification. *)
Lemma to_number_simple_examples :
  Cleaner.to_number_simple (Cleaner.SStr (lit "15 millones de pesos"))
  = Return (PyFloat (Finite (15000000 # 1)))
  /\ Cleaner.to_number_simple (Cleaner.SStr (lit "500 mil pesos"))
     = Return (PyFloat (Finite (500000 # 1)))
  /\ Cleaner.to_number_simple (Cleaner.SStr (lit "null")) = Return PyNone
  /\ Cleaner.to_number_simple (Cleaner.SStr (lit "None")) = Return PyNone
  /\ Cleaner.to_number_simple (Cleaner.SStr (lit " - ")) = Return PyNone
  /\ Cleaner.to_number_simple (Cleaner.SStr []) = Return PyNone
  /\ Cleaner.to_number_simple (Cleaner.SInt 7) = Return (PyFloat (Finite (7 # 1)))
  /\ Cleaner.to_number_simple (Cleaner.SStr (lit "mas de 50,000 personas"))
     = Return (PyFloat (Finite (50000 # 1)))
  /\ Cleaner.to_number_simple (Cleaner.SStr (lit "2.5 Millones"))
     = Return (PyFloat (Finite (2500000 # 1)))
  /\ Cleaner.to_number_simple (Cleaner.SStr (lit "sin dato")) = Return PyNone.
Proof. repeat split; vm_compute; reflexivity. Qed.

(** C7.  The contract holds on [None], on strings, on floats and on the
    integers in the range of [float] (see [to_number_simple_contract]),
    but not on every input: the integer [10 ** 400], which [json.loads]
    yields for a literal of 401 digits, makes [float(s)] raise
    [OverflowError]. *)
Theorem to_number_simple_overflow :
  Cleaner.to_number_simple (Cleaner.SInt (10 ^ 400)) = Raise OverflowError
  /\ Json.loads (49 :: repeat 48 400) = Return (PyInt (10 ^ 400)).
Proof. split; vm_compute; reflexivity. Qed.

(** * Further properties of the code *)

Local Open Scope N_scope.

(** ** No fence marker is left *)

Lemma startswith_head_neq (m : str) (x : char) : forall (c : char) (s : str),
  c <> x -> startswith (x :: m) (c :: s) = false.
Proof.
  intros c s H. simpl. destruct (N.eqb_spec x c); [congruence|reflexivity].
Qed.

Lemma tagged_head (c : char) (s : str) : c <> 96 -> startswith (lit "```json") (c :: s) = false.
Proof. apply (startswith_head_neq (lit "``json") 96). Qed.

Lemma bare_head (c : char) (s : str) : c <> 96 -> startswith (lit "```") (c :: s) = false.
Proof. apply (startswith_head_neq (lit "``") 96). Qed.

Lemma bare_second (c d : char) (s : str) :
  d <> 96 -> startswith (lit "```") (c :: d :: s) = false.
Proof.
  intros H.
  change (startswith (lit "```") (c :: d :: s))
    with ((96 =? c) && ((96 =? d) && startswith (lit "`") s)).
  destruct (N.eqb_spec 96 d); [congruence|]. apply andb_false_r.
Qed.

Lemma bare_third (c d e : char) (s : str) :
  e <> 96 -> startswith (lit "```") (c :: d :: e :: s) = false.
Proof.
  intros H.
  change (startswith (lit "```") (c :: d :: e :: s))
    with ((96 =? c) && ((96 =? d) && ((96 =? e) && true))).
  destruct (N.eqb_spec 96 e); [congruence|].
  rewrite andb_false_r. apply andb_false_r.
Qed.

Lemma bare_one (c : char) : startswith (lit "```") [c] = false.
Proof.
  change (startswith (lit "```") [c]) with ((96 =? c) && false).
  apply andb_false_r.
Qed.

Lemma bare_short (c d : char) : startswith (lit "```") [c; d] = false.
Proof.
  change (startswith (lit "```") [c; d]) with ((96 =? c) && ((96 =? d) && false)).
  rewrite andb_false_r. apply andb_false_r.
Qed.

Lemma tagged_bare s : startswith (lit "```") s = false -> startswith (lit "```json") s = false.
Proof.
  intros H. destruct (startswith (lit "```json") s) eqn:E; [|reflexivity].
  apply (startswith_prefix (lit "```") (lit "json")) in E. congruence.
Qed.

(** Where the text does not begin with a backtick, neither does the
    result of the substitution. *)
Lemma sub_fences_head (s : str) :
  match s with c :: _ => c <> 96 | [] => True end ->
  match Analyzer.sub_fences 0 s with c :: _ => c <> 96 | [] => True end.
Proof.
  destruct s as [|c s]; [trivial|]. intros H.
  rewrite sub_fences_unfold.
  now rewrite (tagged_head c s H), (bare_head c s H).
Qed.

Lemma sub_fences_fence_free_bounded : forall n s,
  (length s <= n)%nat -> contains (lit "```") (Analyzer.sub_fences 0 s) = false.
Proof.
  induction n as [|n IH]; intros s Hn.
  - destruct s; [reflexivity | simpl in Hn; lia].
  - rewrite sub_fences_unfold.
    destruct (startswith (lit "```json") s) eqn:E.
    { apply IH. rewrite length_skipn. lia. }
    destruct (startswith (lit "```") s) eqn:E'.
    { apply IH. rewrite length_skipn. lia. }
    destruct s as [|c s1]; [reflexivity|].
    cbn [contains]. rewrite (IH s1) by (simpl in Hn; lia).
    rewrite orb_false_r.
    destruct (N.eqb_spec c 96) as [Hc|Hc];
      [|now apply bare_head].
    destruct s1 as [|c1 s2]; [apply bare_one|].
    destruct (N.eqb_spec c1 96) as [Hc1|Hc1].
    + assert (H2 : match s2 with c :: _ => c <> 96 | [] => True end).
      { destruct s2 as [|c2 s3]; [trivial|]. intros ->. subst c c1. cbn in E'. discriminate E'. }
      assert (N2 : startswith (lit "```") (c1 :: s2) = false).
      { destruct s2 as [|c2 s3]; [apply bare_one | now apply bare_second]. }
      rewrite sub_fences_unfold. rewrite (tagged_bare _ N2), N2.
      pose proof (sub_fences_head s2 H2) as H3.
      destruct (Analyzer.sub_fences 0 s2) as [|d r]; [apply bare_short|].
      now apply bare_third.
    + pose proof (sub_fences_head (c1 :: s2) Hc1) as H3.
      destruct (Analyzer.sub_fences 0 (c1 :: s2)) as [|d r]; [apply bare_one|].
      now apply bare_second.
Qed.

Lemma sub_fences_fence_free s :
  contains (lit "```") (Analyzer.sub_fences 0 s) = false.
Proof. now apply (sub_fences_fence_free_bounded (length s)). Qed.

(** The substitution of the scraper, for the bare marker. *)
Lemma sub_bare_unfold (b : bool) (c : char) (r : str) :
  Scraper.sub_marker_ws (lit "```") 0 b (c :: r)
  = if b && isspace c then Scraper.sub_marker_ws (lit "```") 0 true r
    else if startswith (lit "```") (c :: r)
         then Scraper.sub_marker_ws (lit "```") 0 true (skipn 2 r)
         else c :: Scraper.sub_marker_ws (lit "```") 0 false r.
Proof.
  cbn [Scraper.sub_marker_ws].
  destruct (b && isspace c); [reflexivity|].
  destruct (startswith (lit "```") (c :: r)); [|reflexivity].
  apply (sub_marker_ws_match (lit "```") 96 (lit "``") r eq_refl).
Qed.

Lemma sub_bare_head (s : str) :
  match s with c :: _ => c <> 96 | [] => True end ->
  match Scraper.sub_marker_ws (lit "```") 0 false s with
  | c :: _ => c <> 96
  | [] => True
  end.
Proof.
  destruct s as [|c s]; [trivial|]. intros H.
  rewrite sub_bare_unfold. cbn [andb].
  now rewrite (bare_head c s H).
Qed.

Lemma sub_bare_fence_free_bounded : forall n s b,
  (length s <= n)%nat ->
  contains (lit "```") (Scraper.sub_marker_ws (lit "```") 0 b s) = false.
Proof.
  induction n as [|n IH]; intros s b Hn.
  - destruct s; [reflexivity | simpl in Hn; lia].
  - destruct s as [|c s1]; [reflexivity|].
    rewrite sub_bare_unfold.
    destruct (b && isspace c); [apply IH; simpl in Hn; lia|].
    destruct (startswith (lit "```") (c :: s1)) eqn:E'.
    { apply IH. rewrite length_skipn. simpl in Hn. lia. }
    cbn [contains]. rewrite (IH s1) by (simpl in Hn; lia).
    rewrite orb_false_r.
    destruct (N.eqb_spec c 96) as [Hc|Hc];
      [|now apply bare_head].
    destruct s1 as [|c1 s2]; [apply bare_one|].
    destruct (N.eqb_spec c1 96) as [Hc1|Hc1].
    + assert (H2 : match s2 with c :: _ => c <> 96 | [] => True end).
      { destruct s2 as [|c2 s3]; [trivial|]. intros ->. subst c c1. cbn in E'. discriminate E'. }
      assert (N2 : startswith (lit "```") (c1 :: s2) = false).
      { destruct s2 as [|c2 s3]; [apply bare_one | now apply bare_second]. }
      rewrite sub_bare_unfold. cbn [andb]. rewrite N2.
      pose proof (sub_bare_head s2 H2) as H3.
      destruct (Scraper.sub_marker_ws (lit "```") 0 false s2) as [|d r];
        [apply bare_short|].
      now apply bare_third.
    + pose proof (sub_bare_head (c1 :: s2) Hc1) as H3.
      destruct (Scraper.sub_marker_ws (lit "```") 0 false (c1 :: s2)) as [|d r];
        [apply bare_one|].
      now apply bare_second.
Qed.

(** Trimming keeps a part of the text. *)
Lemma contains_app_l p : forall a b,
  contains p a = true -> contains p (a ++ b) = true.
Proof.
  induction a as [|c a IH]; intros b H.
  - simpl in H. rewrite orb_false_r in H.
    destruct p; [|discriminate]. destruct b; reflexivity.
  - simpl in H. apply orb_true_iff in H as [H|H].
    + change ((c :: a) ++ b) with (c :: (a ++ b)). cbn [contains].
      change (c :: a ++ b) with ((c :: a) ++ b).
      now rewrite (startswith_app_l _ _ _ H).
    + change ((c :: a) ++ b) with (c :: (a ++ b)). cbn [contains].
      rewrite (IH b H). apply orb_true_r.
Qed.

Lemma contains_app_r p : forall a b,
  contains p b = true -> contains p (a ++ b) = true.
Proof.
  induction a as [|c a IH]; intros b H; [assumption|].
  change ((c :: a) ++ b) with (c :: (a ++ b)). cbn [contains].
  rewrite (IH b H). apply orb_true_r.
Qed.

Lemma lstrip_suffix : forall s, exists w, s = w ++ lstrip s /\ forallb isspace w = true.
Proof.
  induction s as [|c s (w & E & H)]; [now exists []|].
  simpl. destruct (isspace c) eqn:Hc.
  - exists (c :: w). split; [simpl; now f_equal|]. simpl. now rewrite Hc.
  - now exists [].
Qed.

Lemma rstrip_prefix s : exists w, s = rstrip s ++ w /\ forallb isspace w = true.
Proof.
  unfold rstrip. destruct (lstrip_suffix (rev s)) as (w & E & H).
  exists (rev w). split.
  - rewrite <- rev_app_distr, <- E. symmetry. apply rev_involutive.
  - now rewrite forallb_rev.
Qed.

Lemma contains_strip p s : contains p s = false -> contains p (strip s) = false.
Proof.
  intros H. destruct (contains p (strip s)) eqn:E; [|reflexivity].
  unfold strip in E.
  destruct (rstrip_prefix (lstrip s)) as (w & E1 & _).
  destruct (lstrip_suffix s) as (w' & E2 & _).
  apply (contains_app_l p _ w) in E. rewrite <- E1 in E.
  apply (contains_app_r p w') in E. rewrite <- E2 in E. congruence.
Qed.

Lemma A_prepare_fence_free w : no_fence (Analyzer.prepare w) = true.
Proof.
  unfold no_fence, Analyzer.prepare. apply negb_true_iff.
  apply contains_strip, sub_fences_fence_free.
Qed.

Lemma S_prepare_fence_free w : no_fence (Scraper.prepare w) = true.
Proof.
  unfold no_fence, Scraper.prepare. apply negb_true_iff.
  apply contains_strip.
  now apply (sub_bare_fence_free_bounded (length (Scraper.sub_marker_ws (lit "```json") 0 false w))).
Qed.

(** X4.  After the cleaning step of either routine, the text holds no
    triple backtick: every fence marker is gone, also one that the
    removal of another brings together. *)
Theorem prepare_leaves_no_fence (w : str) :
  contains (lit "```") (Analyzer.prepare w) = false
  /\ contains (lit "```") (Scraper.prepare w) = false.
Proof.
  split; apply negb_true_iff.
  - apply A_prepare_fence_free.
  - apply S_prepare_fence_free.
Qed.

(** ** Cleaning twice *)

Lemma lstrip_idem s : lstrip (lstrip s) = lstrip s.
Proof.
  induction s as [|c s IH]; [reflexivity|].
  simpl. destruct (isspace c) eqn:E; [assumption|]. simpl. now rewrite E.
Qed.

Lemma strip_idem s : strip (strip s) = strip s.
Proof.
  unfold strip.
  assert (L : lstrip (rstrip (lstrip s)) = rstrip (lstrip s)).
  { destruct (lstrip s) as [|c y] eqn:E; [reflexivity|].
    assert (Hc : isspace c = false).
    { destruct (isspace c) eqn:Hc; [|reflexivity].
      pose proof (lstrip_idem s) as I. rewrite E in I. simpl in I.
      rewrite Hc in I.
      destruct (lstrip_suffix y) as (w & Ew & _).
      apply (f_equal (@length char)) in I. apply (f_equal (@length char)) in Ew.
      rewrite length_app in Ew. simpl in I. lia. }
    pose proof (rstrip_app_last c [] y Hc) as R.
    change ([] ++ c :: y) with (c :: y) in R.
    change ([] ++ c :: rstrip y) with (c :: rstrip y) in R.
    rewrite R. cbn [lstrip]. now rewrite Hc. }
  rewrite L. unfold rstrip. rewrite rev_involutive. now rewrite lstrip_idem.
Qed.

(** X5.  The cleaning step of either routine is idempotent: cleaning a
    cleaned text changes nothing. *)
Theorem prepare_idempotent (w : str) :
  Analyzer.prepare (Analyzer.prepare w) = Analyzer.prepare w
  /\ Scraper.prepare (Scraper.prepare w) = Scraper.prepare w.
Proof.
  split.
  - rewrite (A_prepare_no_fence _ (A_prepare_fence_free w)).
    unfold Analyzer.prepare. apply strip_idem.
  - rewrite (S_prepare_no_fence _ (S_prepare_fence_free w)).
    unfold Scraper.prepare. apply strip_idem.
Qed.

(** ** The sign of a number read from text *)

Lemma digits_val_acc ds : forall a, (0 <= a)%Z ->
  (0 <= fold_left (fun a c => (a * 10 + Z.of_N (c - 48))%Z) ds a)%Z.
Proof.
  induction ds as [|c ds IH]; intros a Ha; [assumption|].
  simpl. apply IH. lia.
Qed.

Lemma digits_val_nonneg ds : (0 <= Json.digits_val ds)%Z.
Proof. apply digits_val_acc. lia. Qed.

Lemma decimal_nonneg m e : (0 <= m)%Z -> (0 <= Json.decimal m e)%Q.
Proof.
  intros Hm. unfold Json.decimal. destruct (0 <=? e)%Z eqn:E.
  - apply Z.leb_le in E. unfold Qle. simpl.
    assert (0 <= 10 ^ e)%Z by (apply Z.pow_nonneg; lia). nia.
  - unfold Qle. simpl. lia.
Qed.

Lemma finite_not_negative q : (0 <= q)%Q -> not_negative (finite q).
Proof. intros H. unfold finite, not_negative. now rewrite Qred_correct. Qed.

Lemma float_of_group_not_negative g : not_negative (Cleaner.float_of_group g).
Proof.
  unfold Cleaner.float_of_group. destruct (Json.span_digits g) as [ip rest].
  destruct rest as [|c fp]; apply finite_not_negative.
  - unfold Qle. simpl. pose proof (digits_val_nonneg ip). lia.
  - apply decimal_nonneg, digits_val_nonneg.
Qed.

Lemma float_mul_not_negative f n :
  (0 <= n)%Z -> not_negative f -> not_negative (Cleaner.float_mul f n).
Proof.
  intros Hn. destruct f as [q|b|]; unfold Cleaner.float_mul; [|trivial|trivial].
  intros Hq. change (0 <= q)%Q in Hq. apply finite_not_negative.
  apply Qmult_le_0_compat; [assumption|]. unfold Qle. simpl. lia.
Qed.

(** X6.  Read from a text, a number never comes out negative: the
    result of [to_number_simple] on a [str] is [None] or a float that is
    neither negative nor a NaN.  The patterns match digits only, so that
    a minus sign before the number is dropped. *)
Theorem to_number_simple_drops_sign (s : str) :
  Cleaner.to_number_simple (Cleaner.SStr s) = Return PyNone
  \/ exists f, Cleaner.to_number_simple (Cleaner.SStr s) = Return (PyFloat f)
               /\ not_negative f.
Proof.
  unfold Cleaner.to_number_simple.
  set (t := strip (Cleaner.remove_commas (Cleaner.lower s))).
  destruct (Cleaner.sentinel t); [now left|].
  destruct (Cleaner.search (Cleaner.number_then (lit "mill")) t) as [g|].
  { right. eexists. split; [reflexivity|].
    apply float_mul_not_negative; [lia | apply float_of_group_not_negative]. }
  destruct (Cleaner.search (Cleaner.number_then (lit "mil")) t) as [g|].
  { right. eexists. split; [reflexivity|].
    apply float_mul_not_negative; [lia | apply float_of_group_not_negative]. }
  destruct (Cleaner.search Cleaner.number_alone t) as [g|]; [|now left].
  right. eexists. split; [reflexivity | apply float_of_group_not_negative].
Qed.

(** ** Witnesses of the three patterns *)




Local Open Scope N_scope.

(** ** The callers of the recovery *)

Section Callers.
Variable loads : str -> outcome pyval.
Variable describe : exn -> str.

Lemma A_clean_returns (w : str) : exists v, Analyzer.clean_json_string loads w = Return v.
Proof.
  unfold Analyzer.clean_json_string. destruct w as [|c w']; [now exists PyNone|].
  cbv zeta. destruct (Analyzer.scan _ _ _ _ _ _) as [v|]; [now exists v|].
  destruct (loads _) as [v|e]; [now exists v | now exists PyNone].
Qed.

Lemma A_clean_is_parse (w : str) (v : pyval) :
  Analyzer.clean_json_string loads w = Return v ->
  v = PyNone \/ exists a b, loads (slice (Analyzer.prepare w) a b) = Return v.
Proof.
  unfold Analyzer.clean_json_string. destruct w as [|c w'].
  - intros H. injection H as <-. now left.
  - cbv zeta. set (t := Analyzer.prepare (c :: w')).
    destruct (Analyzer.scan loads t 0 t None 0%Z) as [v'|] eqn:E.
    + intros H. injection H as <-. right. exact (A_scan_is_parse _ _ _ _ _ _ _ E).
    + destruct (loads t) as [v'|e] eqn:L; intros H; injection H as <-; [|now left].
      right. exists 0%nat, (length t). now rewrite slice_all.
Qed.

(** X7.  [analyze_with_gemini] returns [None] when there is no model
    and only then: with a model, a failure of the call, an answer
    without JSON and an answer that is the JSON [null] all give a
    record with the key [_error]. *)
Theorem analyze_with_gemini_none (model : option (str -> str -> reply))
        (document_text file_path : str) :
  Analyzer.analyze_with_gemini loads describe model document_text file_path = PyNone
  <-> model = None.
Proof.
  split; [|now intros ->].
  destruct model as [generate|]; [|reflexivity].
  unfold Analyzer.analyze_with_gemini.
  destruct (generate document_text file_path) as [text|j m]; [|discriminate].
  cbv zeta. destruct (Analyzer.clean_json_string loads _) as [v|e]; [|discriminate].
  destruct v; discriminate.
Qed.

(** X8.  When no part of the cleaned answer parses to a value other
    than [None], the result is the record [llm_no_json], whose preview
    is the answer cut to 1000 characters. *)
Theorem analyze_with_gemini_no_json (generate : str -> str -> reply)
        (document_text file_path : str) (text : option str) :
  generate document_text file_path = Answer text ->
  (forall a b v,
      loads (slice (Analyzer.prepare (match text with Some t => t | None => [] end)) a b)
      = Return v -> v = PyNone) ->
  Analyzer.analyze_with_gemini loads describe (Some generate) document_text file_path
  = PyDict [(lit "_error", PyStr (lit "llm_no_json"));
            (lit "raw_preview",
             PyStr (firstn 1000 (match text with Some t => t | None => [] end)))]
  /\ (length (firstn 1000 (match text with Some t => t | None => [] end)) <= 1000)%nat.
Proof.
  intros G H. split; [|apply firstn_le_length].
  unfold Analyzer.analyze_with_gemini. rewrite G. cbv zeta.
  set (raw := match text with Some t => t | None => [] end) in *.
  destruct (A_clean_returns raw) as [v E]. rewrite E.
  destruct (A_clean_is_parse raw v E) as [->|(a & b & L)]; [reflexivity|].
  now rewrite (H a b v L).
Qed.

(** X20.  When the cleaned answer is noise and candidate spans and
    the first span that parses gives a value other than [None],
    [analyze_with_gemini] returns that value as it is, with no record
    around it. *)
Theorem analyze_with_gemini_recovers (generate : str -> str -> reply)
        (document_text file_path answer : str) (v : pyval) :
  generate document_text file_path = Answer (Some answer) ->
  first_valid loads (Analyzer.prepare answer) v ->
  v <> PyNone ->
  Analyzer.analyze_with_gemini loads describe (Some generate) document_text file_path = v.
Proof.
  intros G F N. unfold Analyzer.analyze_with_gemini. rewrite G. cbv zeta.
  rewrite (A_clean_first_valid loads answer v F).
  destruct v; try reflexivity. now destruct N.
Qed.

End Callers.

Lemma slices_of_null (a b : nat) (v : pyval) :
  Json.loads (slice (lit "null") a b) = Return v -> v = PyNone.
Proof.
  unfold slice.
  destruct a as [|[|[|[|[|a]]]]]; cbn [skipn lit list_ascii_of_string map];
    destruct (b - _)%nat as [|[|[|[|[|n]]]]];
    vm_compute; intros H; try discriminate H; now injection H as <-.
Qed.

Lemma analyze_with_gemini_recovers_witness :
  Analyzer.analyze_with_gemini Json.loads (fun _ => [])
    (Some (fun _ _ => Answer (Some (txt "Resultado: {'kpi': 3} fin"))))
    (lit "documento") (lit "a.pdf")
  = PyDict [(lit "kpi", PyInt 3)].
Proof.
  apply (analyze_with_gemini_recovers Json.loads (fun _ => [])
           (fun _ _ => Answer (Some (txt "Resultado: {'kpi': 3} fin")))
           (lit "documento") (lit "a.pdf") (txt "Resultado: {'kpi': 3} fin")
           (PyDict [(lit "kpi", PyInt 3)]) eq_refl); [|discriminate].
  change (Analyzer.prepare (txt "Resultado: {'kpi': 3} fin"))
    with (lit "Resultado: " ++ txt "{'kpi': 3}" ++ lit " fin").
  apply fv_here; vm_compute; reflexivity.
Defined.

Lemma analyze_with_gemini_no_json_witness :
  Analyzer.analyze_with_gemini Json.loads (fun _ => []) (Some (fun _ _ => Answer (Some (lit "null"))))
                               (lit "documento") (lit "a.pdf")
  = PyDict [(lit "_error", PyStr (lit "llm_no_json")); (lit "raw_preview", PyStr (lit "null"))].
Proof.
  apply (analyze_with_gemini_no_json Json.loads (fun _ => [])
           (fun _ _ => Answer (Some (lit "null"))) (lit "documento") (lit "a.pdf")
           (Some (lit "null")) eq_refl).
  intros a b v. change (Analyzer.prepare (lit "null")) with (lit "null").
  apply slices_of_null.
Defined.

(** ** Truncation *)

Local Open Scope Z_scope.

Lemma round53_bounds (m : Z) :
  0 <= m -> 0 <= round53 m /\ 2 ^ 52 * round53 m <= (2 ^ 52 + 1) * m.
Proof.
  intros Hm. unfold round53.
  set (e := Z.log2 m + 1 - 53).
  destruct (Z.leb_spec e 0) as [He|He]; [lia|].
  assert (Hpos : 0 < m).
  { destruct (Z.eq_dec m 0) as [->|]; [|lia]. unfold e in He. simpl in He. lia. }
  pose proof (Z.log2_spec m Hpos) as [Hlo _].
  assert (E52 : 2 ^ 52 * 2 ^ e = 2 ^ Z.log2 m).
  { rewrite <- Z.pow_add_r by lia. f_equal. unfold e. lia. }
  rewrite !Z.shiftl_mul_pow2 by lia. rewrite Z.shiftr_div_pow2 by lia.
  assert (P : 0 < 2 ^ e) by (apply Z.pow_pos_nonneg; lia).
  pose proof (Z.div_mod m (2 ^ e) ltac:(lia)) as D.
  pose proof (Z.mod_pos_bound m (2 ^ e) P) as B.
  assert (Q : 0 <= m / 2 ^ e) by (apply Z.div_pos; lia).
  set (q := m / 2 ^ e) in *.
  set (q' := if m - q * 2 ^ e <? 1 * 2 ^ (e - 1) then q
             else if 1 * 2 ^ (e - 1) <? m - q * 2 ^ e then q + 1
                  else if Z.even q then q else q + 1).
  assert (Hq : q <= q' <= q + 1).
  { unfold q'. destruct (_ <? _); [lia|]. destruct (_ <? _); [lia|].
    destruct (Z.even q); lia. }
  split; [nia|].
  assert (q' * 2 ^ e <= m + 2 ^ e) by nia.
  nia.
Qed.

Lemma seven_tenths_small : (2 ^ 52 + 1) * ((2 ^ 52 + 1) * seven_tenths) < 2 ^ 52 * (2 ^ 52 * 2 ^ 53).
Proof. vm_compute. reflexivity. Qed.

Lemma int_times_07_bounds (n : Z) :
  0 < n -> n < 2 ^ 1024 - 2 ^ 970 ->
  exists k, int_times_07 n = Return k /\ 0 <= k < n.
Proof.
  intros Hn Hr. unfold int_times_07.
  rewrite Z.abs_eq by lia. apply Z.ltb_lt in Hr. rewrite Hr.
  rewrite (Z.sgn_pos n Hn), Z.mul_1_l.
  eexists. split; [reflexivity|].
  destruct (round53_bounds n ltac:(lia)) as [X0 X1].
  set (X := round53 n) in *.
  assert (P0 : 0 <= X * seven_tenths) by (unfold seven_tenths; lia).
  destruct (round53_bounds _ P0) as [R0 R1].
  set (R := round53 (X * seven_tenths)) in *.
  split; [apply Z.div_pos; lia|].
  apply Z.div_lt_upper_bound; [lia|].
  pose proof seven_tenths_small as S.
  assert (A : 2 ^ 52 * (2 ^ 52 * R) <= (2 ^ 52 + 1) * ((2 ^ 52 + 1) * seven_tenths) * n).
  { assert (2 ^ 52 * (2 ^ 52 * R) <= 2 ^ 52 * ((2 ^ 52 + 1) * (X * seven_tenths))) by lia.
    assert ((2 ^ 52 + 1) * seven_tenths * (2 ^ 52 * X)
            <= (2 ^ 52 + 1) * seven_tenths * ((2 ^ 52 + 1) * n)).
    { apply Z.mul_le_mono_nonneg_l; [unfold seven_tenths; lia | assumption]. }
    lia. }
  assert (B : (2 ^ 52 + 1) * ((2 ^ 52 + 1) * seven_tenths) * n
              < 2 ^ 52 * (2 ^ 52 * 2 ^ 53) * n).
  { apply Z.mul_lt_mono_pos_r; assumption. }
  assert (C : 2 ^ 52 * (2 ^ 52 * R) < 2 ^ 52 * (2 ^ 52 * (2 ^ 53 * n))) by lia.
  lia.
Qed.

Lemma bound_inside (n i : Z) : 0 <= i <= n -> bound n i = Z.to_nat i.
Proof.
  intros H. unfold bound. destruct (Z.ltb_spec i 0); [lia|]. f_equal. lia.
Qed.

Lemma bound_from_end (n j : Z) : 0 < j <= n -> bound n (- j) = Z.to_nat (n - j).
Proof.
  intros H. unfold bound. destruct (Z.ltb_spec (- j) 0); [|lia]. f_equal. lia.
Qed.

(** The cut, given the length of its first part. *)
Lemma truncate_smart_cut_at (text : str) (n k : Z) :
  n < len text -> int_times_07 n = Return k -> 0 <= k < n ->
  Scraper.truncate_smart text n
  = Return (firstn (Z.to_nat k) text ++ Scraper.truncado
            ++ skipn (length text - Z.to_nat (n - k)) text)
  /\ length (firstn (Z.to_nat k) text ++ Scraper.truncado
             ++ skipn (length text - Z.to_nat (n - k)) text)
     = (Z.to_nat n + 20)%nat.
Proof.
  intros Hn Hk Hb. unfold len in Hn. split.
  - unfold Scraper.truncate_smart.
    destruct (Z.leb_spec (len text) n) as [H|H]; [unfold len in H; lia|].
    rewrite Hk. cbv zeta. unfold slice_to, slice_from.
    rewrite bound_inside by (unfold len; lia).
    rewrite bound_from_end by (unfold len; lia).
    assert (E : Z.to_nat (len text - (n - k)) = (length text - Z.to_nat (n - k))%nat)
      by (unfold len; lia).
    now rewrite E.
  - rewrite !length_app, length_firstn, length_skipn.
    change (length Scraper.truncado) with 20%nat. lia.
Qed.

(** X10.  A text longer than [max_chars > 0] is cut to its first
    [int(max_chars * 0.7)] characters, the marker, and its last
    characters, [max_chars] of the text in all: the result is 20
    characters longer than [max_chars]. *)
Theorem truncate_smart_cut (text : str) (max_chars : Z) :
  0 < max_chars -> max_chars < len text -> max_chars < 2 ^ 1024 - 2 ^ 970 ->
  exists k,
    0 <= k < max_chars
    /\ int_times_07 max_chars = Return k
    /\ Scraper.truncate_smart text max_chars
       = Return (firstn (Z.to_nat k) text ++ Scraper.truncado
                 ++ skipn (length text - Z.to_nat (max_chars - k)) text)
    /\ length (firstn (Z.to_nat k) text ++ Scraper.truncado
               ++ skipn (length text - Z.to_nat (max_chars - k)) text)
       = (Z.to_nat max_chars + 20)%nat.
Proof.
  intros H0 H1 H2. destruct (int_times_07_bounds max_chars H0 H2) as (k & Hk & Hb).
  exists k. split; [assumption|]. split; [assumption|].
  now apply truncate_smart_cut_at.
Qed.

Lemma truncate_smart_cut_witness :
  Scraper.truncate_smart (lit "abcdefghijklm") 10
  = Return (lit "abcdefg" ++ Scraper.truncado ++ lit "klm").
Proof.
  destruct (truncate_smart_cut (lit "abcdefghijklm") 10) as (k & Hb & Hk & Ht & _);
    [lia | vm_compute; reflexivity | vm_compute; reflexivity |].
  vm_compute in Hk. injection Hk as <-. exact Ht.
Defined.

(** X11.  With [max_chars = 0] nothing is cut: the slice [text[-0:]]
    is the whole text, and the result is the marker and the text. *)
Theorem truncate_smart_zero (text : str) :
  text <> [] -> Scraper.truncate_smart text 0 = Return (Scraper.truncado ++ text).
Proof.
  intros H. destruct text as [|c t]; [contradiction|].
  unfold Scraper.truncate_smart.
  destruct (Z.leb_spec (len (c :: t)) 0) as [L|L]; [unfold len in L; simpl in L; lia|].
  change (int_times_07 0) with (@Return Z 0). cbv zeta.
  unfold slice_to, slice_from.
  rewrite !bound_inside by (unfold len; simpl length; lia). reflexivity.
Qed.

Lemma truncate_smart_zero_witness :
  Scraper.truncate_smart (lit "abc") 0 = Return (Scraper.truncado ++ lit "abc").
Proof. apply truncate_smart_zero. discriminate. Defined.

Lemma truncate_smart_limit_returns (text : str) :
  exists sent, Scraper.truncate_smart text Scraper.MAX_CHARS = Return sent.
Proof.
  unfold Scraper.truncate_smart.
  destruct (len text <=? Scraper.MAX_CHARS)%Z; [now exists text|].
  change (int_times_07 Scraper.MAX_CHARS) with (@Return Z 70000). cbv zeta.
  eexists. reflexivity.
Qed.

(** X12.  The document that [analyze_document] sends to the model: a
    document of at most 100000 characters as it is; of a longer one the
    first 70000 characters, the marker and the last 30000, which makes
    100020 characters. *)
Theorem truncate_smart_max_chars (text : str) :
  exists sent,
    Scraper.truncate_smart text Scraper.MAX_CHARS = Return sent
    /\ (len text <= 100000 -> sent = text)
    /\ (100000 < len text ->
        sent = firstn (Z.to_nat 70000) text ++ Scraper.truncado
               ++ skipn (length text - Z.to_nat 30000) text
        /\ len sent = 100020).
Proof.
  destruct (Z.leb_spec (len text) 100000) as [H|H].
  - exists text. split; [|split; [reflexivity | lia]].
    unfold Scraper.truncate_smart, Scraper.MAX_CHARS.
    apply Z.leb_le in H. now rewrite H.
  - assert (K : int_times_07 100000 = Return 70000) by (vm_compute; reflexivity).
    destruct (truncate_smart_cut_at text 100000 70000 H K ltac:(lia)) as [T L].
    change (100000 - 70000) with 30000 in T, L.
    eexists. split; [exact T|]. split; [lia|]. intros _. split; [reflexivity|].
    unfold len. rewrite L. reflexivity.
Qed.

(** ** [analyze_document] *)

Section Document.
Variable loads : str -> outcome pyval.
Variable describe : exn -> str.
Variable generate : str -> str -> reply.

Lemma S_clean_raises (w : str) :
  (forall a b, loads (slice (Scraper.prepare w) a b) = Raise JSONDecodeError) ->
  Scraper.clean_json_string loads w = Raise JSONDecodeError.
Proof.
  intros H. unfold Scraper.clean_json_string. cbv zeta.
  set (t := Scraper.prepare w) in *.
  pose proof (H 0%nat (length t)) as L. rewrite slice_all in L. rewrite L.
  destruct (Scraper.scan loads t 0 t [] (-1)%Z) as [o|] eqn:E; [|reflexivity].
  destruct (S_scan_is_parse _ _ _ _ _ _ _ E) as (a & b & <-). apply H.
Qed.

(** X9.  [analyze_document] never raises, whatever the document and
    the answer of the model: it returns a value.  When the parser
    rejects every part of the cleaned answer, the value is the record
    whose [error] is [JSON invalido], whose [details] is the message of
    the exception that [clean_json_string] raises, and whose
    [raw_preview] is the trimmed answer cut to 300 characters. *)
Theorem analyze_document_reports (document_text file_path : str) :
  (exists v,
      Scraper.analyze_document loads describe generate document_text file_path = Return v)
  /\ (forall sent text,
         Scraper.truncate_smart document_text Scraper.MAX_CHARS = Return sent ->
         generate sent file_path = Answer (Some text) ->
         (forall a b,
             loads (slice (Scraper.prepare (strip text)) a b) = Raise JSONDecodeError) ->
         Scraper.analyze_document loads describe generate document_text file_path
         = Return (PyDict [(lit "error", PyStr Scraper.json_invalido);
                           (lit "details", PyStr Scraper.no_json_message);
                           (lit "raw_preview", PyStr (firstn 300 (strip text)))])).
Proof.
  split.
  - unfold Scraper.analyze_document.
    destruct (truncate_smart_limit_returns document_text) as (sent & ->).
    destruct (generate sent file_path) as [[text|]|[|] m]; try (eexists; reflexivity).
    cbv zeta. destruct (Scraper.clean_json_string loads (strip text)) as [v|[| |]];
      eexists; reflexivity.
  - intros sent text T G H. unfold Scraper.analyze_document. rewrite T, G. cbv zeta.
    now rewrite (S_clean_raises _ H).
Qed.

(** X21.  [analyze_document] returns what the whole cleaned answer
    parses to, of whatever type, [None] for the answer [null]
    included; when the whole is rejected and the cleaned answer is
    noise and candidate spans, it returns the parse of the first span
    that parses. *)
Theorem analyze_document_recovers (document_text file_path sent text : str) (v : pyval) :
  Scraper.truncate_smart document_text Scraper.MAX_CHARS = Return sent ->
  generate sent file_path = Answer (Some text) ->
  loads (Scraper.prepare (strip text)) = Return v
  \/ (loads (Scraper.prepare (strip text)) = Raise JSONDecodeError
      /\ first_valid loads (Scraper.prepare (strip text)) v) ->
  Scraper.analyze_document loads describe generate document_text file_path = Return v.
Proof.
  intros T G H. unfold Scraper.analyze_document. rewrite T, G. cbv zeta.
  destruct H as [L|[L F]].
  - unfold Scraper.clean_json_string. cbv zeta. now rewrite L.
  - now rewrite (S_clean_first_valid loads (strip text) v F L).
Qed.

End Document.

Lemma analyze_document_reports_witness :
  Scraper.analyze_document Json.loads (fun _ => []) (fun _ _ => Answer (Some (lit " { ")))
                           (lit "documento") (lit "a.pdf")
  = Return (PyDict [(lit "error", PyStr Scraper.json_invalido);
                    (lit "details", PyStr Scraper.no_json_message);
                    (lit "raw_preview", PyStr (lit "{"))]).
Proof.
  destruct (analyze_document_reports Json.loads (fun _ => [])
              (fun _ _ => Answer (Some (lit " { "))) (lit "documento") (lit "a.pdf"))
    as [_ H].
  apply (H (lit "documento") (lit " { ")); [vm_compute; reflexivity | reflexivity |].
  intros a b. change (Scraper.prepare (strip (lit " { "))) with [123%N].
  destruct (slices_of_one 123%N a b) as [E | E]; unfold char in E; rewrite E;
    vm_compute; reflexivity.
Defined.

Lemma analyze_document_recovers_witness :
  Scraper.analyze_document Json.loads (fun _ => []) (fun _ _ => Answer (Some (lit " null ")))
                           (lit "documento") (lit "a.pdf")
  = Return PyNone
  /\ Scraper.analyze_document Json.loads (fun _ => [])
       (fun _ _ => Answer (Some (txt "Resultado: {'kpi': 3} fin")))
       (lit "documento") (lit "a.pdf")
     = Return (PyDict [(lit "kpi", PyInt 3)]).
Proof.
  split.
  - apply (analyze_document_recovers Json.loads (fun _ => [])
             (fun _ _ => Answer (Some (lit " null ")))
             (lit "documento") (lit "a.pdf") (lit "documento") (lit " null "));
      [vm_compute; reflexivity | reflexivity |].
    left. vm_compute. reflexivity.
  - apply (analyze_document_recovers Json.loads (fun _ => [])
             (fun _ _ => Answer (Some (txt "Resultado: {'kpi': 3} fin")))
             (lit "documento") (lit "a.pdf") (lit "documento")
             (txt "Resultado: {'kpi': 3} fin"));
      [vm_compute; reflexivity | reflexivity |].
    right. split; [vm_compute; reflexivity|].
    change (Scraper.prepare (strip (txt "Resultado: {'kpi': 3} fin")))
      with (lit "Resultado: " ++ txt "{'kpi': 3}" ++ lit " fin").
    apply fv_here; vm_compute; reflexivity.
Defined.


Local Open Scope N_scope.

(** ** Records *)

Lemma str_eqb_eq (a b : str) : str_eqb a b = true <-> a = b.
Proof. unfold str_eqb. destruct (list_eq_dec N.eq_dec a b); split; congruence. Qed.

Lemma str_eqb_refl (a : str) : str_eqb a a = true.
Proof. now apply str_eqb_eq. Qed.

Lemma str_eqb_neq (a b : str) : str_eqb a b = false <-> a <> b.
Proof. unfold str_eqb. destruct (list_eq_dec N.eq_dec a b); split; congruence. Qed.

Lemma among_In (ks : list str) (k : str) : among ks k = true <-> In k ks.
Proof.
  unfold among. rewrite existsb_exists. split.
  - intros (x & Hx & E). apply str_eqb_eq in E. now subst.
  - intros H. exists k. split; [assumption | apply str_eqb_refl].
Qed.

Lemma dict_get_set_same d k v : dict_get (dict_set d k v) k = Some v.
Proof.
  induction d as [|[k' v'] d IH]; simpl.
  - now rewrite str_eqb_refl.
  - destruct (str_eqb k' k) eqn:E; simpl; rewrite E; [reflexivity | assumption].
Qed.

Lemma dict_get_set_other d k v k' :
  k <> k' -> dict_get (dict_set d k v) k' = dict_get d k'.
Proof.
  intros H. induction d as [|[k0 v0] d IH]; simpl.
  - apply str_eqb_neq in H. now rewrite H.
  - destruct (str_eqb k0 k) eqn:E; simpl.
    + apply str_eqb_eq in E. subst k0. apply str_eqb_neq in H. now rewrite H.
    + destruct (str_eqb k0 k'); [reflexivity | assumption].
Qed.

Lemma dict_get_set d k v k' :
  dict_get (dict_set d k v) k' = if str_eqb k k' then Some v else dict_get d k'.
Proof.
  destruct (str_eqb k k') eqn:E.
  - apply str_eqb_eq in E. subst. apply dict_get_set_same.
  - apply str_eqb_neq in E. now apply dict_get_set_other.
Qed.

Lemma dict_set_same d k v : dict_get d k = Some v -> dict_set d k v = d.
Proof.
  induction d as [|[k' v'] d IH]; simpl; [discriminate|].
  destruct (str_eqb k' k) eqn:E.
  - now intros [= ->].
  - intros H. now rewrite IH.
Qed.

Lemma dict_set_keys_present d k v x :
  dict_get d k = Some x -> map fst (dict_set d k v) = map fst d.
Proof.
  induction d as [|[k' v'] d IH]; simpl; [discriminate|].
  destruct (str_eqb k' k) eqn:E; [reflexivity|].
  intros H. simpl. now rewrite IH.
Qed.

Lemma dict_set_absent d k v : dict_get d k = None -> dict_set d k v = d ++ [(k, v)].
Proof.
  induction d as [|[k' v'] d IH]; simpl; [reflexivity|].
  destruct (str_eqb k' k) eqn:E; [discriminate|].
  intros H. now rewrite IH.
Qed.

Lemma dict_get_app_other d k v k' :
  k <> k' -> dict_get (d ++ [(k, v)]) k' = dict_get d k'.
Proof.
  intros H. induction d as [|[k0 v0] d IH]; simpl.
  - apply str_eqb_neq in H. now rewrite H.
  - destruct (str_eqb k0 k'); [reflexivity | assumption].
Qed.

Lemma has_key_In d k : has_key d k = true <-> In k (map fst d).
Proof.
  unfold has_key. induction d as [|[k' v'] d IH]; simpl.
  - split; [discriminate | contradiction].
  - destruct (str_eqb k' k) eqn:E.
    + apply str_eqb_eq in E. split; auto.
    + apply str_eqb_neq in E. rewrite IH. split; [auto | intros [H|H]; [contradiction | assumption]].
Qed.

(** The keys after a loop that sets each of [ks], where a step adds
    the key it sets when the record does not have it. *)
Lemma keys_dict_set d k v :
  map fst (dict_set d k v) = map fst d ++ (if has_key d k then [] else [k]).
Proof.
  unfold has_key. destruct (dict_get d k) eqn:E.
  - rewrite (dict_set_keys_present d k v p E). now rewrite app_nil_r.
  - rewrite (dict_set_absent d k v E). now rewrite map_app.
Qed.

Lemma keys_setdefault d k v :
  map fst (setdefault d k v) = map fst d ++ (if has_key d k then [] else [k]).
Proof.
  unfold setdefault. pose proof (keys_dict_set d k v) as H.
  unfold has_key in *. destruct (dict_get d k); [now rewrite app_nil_r | exact H].
Qed.

Lemma has_key_keys d d' : map fst d = map fst d' -> forall k, has_key d k = has_key d' k.
Proof.
  intros H k. destruct (has_key d k) eqn:E; symmetry.
  - apply has_key_In. rewrite <- H. now apply has_key_In.
  - destruct (has_key d' k) eqn:E'; [|reflexivity].
    apply has_key_In in E'. rewrite <- H in E'. apply has_key_In in E'. congruence.
Qed.

Lemma keys_fold (f : list (str * pyval) -> str -> list (str * pyval)) :
  (forall d k, map fst (f d k) = map fst d ++ (if has_key d k then [] else [k])) ->
  forall ks, NoDup ks ->
  forall d, map fst (fold_left f ks d)
            = map fst d ++ filter (fun k => negb (has_key d k)) ks.
Proof.
  intros Hf. induction ks as [|k0 ks IH]; intros N d.
  - simpl. now rewrite app_nil_r.
  - inversion N as [|? ? N0 N1]; subst. simpl fold_left. rewrite (IH N1).
    rewrite Hf. simpl filter.
    assert (F : filter (fun k => negb (has_key (f d k0) k)) ks
                = filter (fun k => negb (has_key d k)) ks).
    { apply filter_ext_in. intros k Hk. f_equal.
      destruct (has_key d k0) eqn:E0.
      - apply has_key_keys. rewrite Hf, E0. apply app_nil_r.
      - destruct (has_key (f d k0) k) eqn:E; symmetry.
        + apply has_key_In in E. rewrite Hf, E0 in E. apply in_app_or in E as [E|[E|[]]].
          * now apply has_key_In.
          * subst. contradiction.
        + destruct (has_key d k) eqn:E'; [|reflexivity].
          apply has_key_In in E'.
          assert (In k (map fst (f d k0))) as I by (rewrite Hf; apply in_or_app; now left).
          apply has_key_In in I. congruence. }
    rewrite F. destruct (has_key d k0); simpl.
    + now rewrite app_nil_r.
    + now rewrite <- app_assoc.
Qed.

Section Normalizer.
Variable repr : pyval -> outcome str.
Variable float_of_str : str -> option pyfloat.

(** *** The stages of [normalize_record] *)

Lemma get_set_defaults ks : forall d k,
  dict_get (Cleaner.set_defaults ks d) k
  = match dict_get d k with
    | Some v => Some v
    | None => if among ks k then Some PyNone else None
    end.
Proof.
  induction ks as [|k0 ks IH]; intros d k.
  - simpl. now destruct (dict_get d k).
  - change (Cleaner.set_defaults (k0 :: ks) d)
      with (Cleaner.set_defaults ks (setdefault d k0 PyNone)).
    rewrite IH. change (among (k0 :: ks) k) with (str_eqb k0 k || among ks k).
    unfold setdefault. destruct (dict_get d k0) eqn:E0.
    + destruct (dict_get d k) eqn:E; [reflexivity|].
      destruct (str_eqb k0 k) eqn:Ek; [|reflexivity].
      apply str_eqb_eq in Ek. subst. congruence.
    + rewrite dict_get_set. destruct (str_eqb k0 k) eqn:Ek.
      * apply str_eqb_eq in Ek. subst. now rewrite E0.
      * reflexivity.
Qed.

Lemma among_NoDup_head k0 ks : NoDup (k0 :: ks) -> among ks k0 = false.
Proof.
  intros N. inversion N; subst.
  destruct (among ks k0) eqn:E; [|reflexivity]. apply among_In in E. contradiction.
Qed.

Lemma get_normalize_years ks : NoDup ks -> forall d k,
  dict_get (Cleaner.normalize_years repr ks d) k
  = if among ks k then Some (Cleaner.normalize_year repr (dict_get d k)) else dict_get d k.
Proof.
  induction ks as [|k0 ks IH]; intros N d k; [reflexivity|].
  change (Cleaner.normalize_years repr (k0 :: ks) d)
    with (Cleaner.normalize_years repr ks
            (dict_set d k0 (Cleaner.normalize_year repr (dict_get d k0)))).
  pose proof (among_NoDup_head _ _ N) as A0. inversion N; subst.
  rewrite IH by assumption.
  change (among (k0 :: ks) k) with (str_eqb k0 k || among ks k).
  rewrite dict_get_set. destruct (str_eqb k0 k) eqn:Ek.
  - apply str_eqb_eq in Ek. subst. now rewrite A0.
  - reflexivity.
Qed.

Lemma numbers_returned ks : NoDup ks -> forall d d',
  Cleaner.normalize_numbers repr ks d = Return d' ->
  map fst d' = map fst d
  /\ forall k,
      (among ks k = false -> dict_get d' k = dict_get d k)
      /\ (among ks k = true -> dict_get d k = None -> dict_get d' k = None)
      /\ (among ks k = true -> forall v, dict_get d k = Some v ->
          exists x, Cleaner.to_number repr v = Return x /\ dict_get d' k = Some x).
Proof.
  induction ks as [|k0 ks IH]; intros N d d' H.
  - injection H as <-. split; [reflexivity|]. intros k. repeat split; discriminate.
  - pose proof (among_NoDup_head _ _ N) as A0. inversion N as [|? ? N0 N1]; subst.
    cbn [Cleaner.normalize_numbers] in H.
    destruct (dict_get d k0) as [v0|] eqn:E0.
    + destruct (Cleaner.to_number repr v0) as [x0|e] eqn:T; [|discriminate].
      destruct (IH N1 _ _ H) as [K G]. split.
      { rewrite K. apply (dict_set_keys_present d k0 x0 v0 E0). }
      intros k. change (among (k0 :: ks) k) with (str_eqb k0 k || among ks k).
      destruct (G k) as (G1 & G2 & G3). rewrite dict_get_set in G1, G2, G3.
      destruct (str_eqb k0 k) eqn:Ek.
      * apply str_eqb_eq in Ek. subst k. repeat split; try discriminate.
        -- intros _ E. congruence.
        -- intros _ v E. rewrite E0 in E. injection E as <-.
           exists x0. split; [assumption | now apply G1].
      * repeat split; assumption.
    + destruct (IH N1 _ _ H) as [K G]. split; [assumption|].
      intros k. change (among (k0 :: ks) k) with (str_eqb k0 k || among ks k).
      destruct (G k) as (G1 & G2 & G3).
      destruct (str_eqb k0 k) eqn:Ek.
      * apply str_eqb_eq in Ek. subst k. repeat split; try discriminate.
        -- intros _ _. rewrite (proj1 (G k0) A0). assumption.
        -- intros _ v E. congruence.
      * repeat split; assumption.
Qed.

Lemma numbers_raised ks : NoDup ks -> forall d e,
  Cleaner.normalize_numbers repr ks d = Raise e ->
  exists k v, In k ks /\ dict_get d k = Some v /\ Cleaner.to_number repr v = Raise e.
Proof.
  induction ks as [|k0 ks IH]; intros N d e H; [discriminate|].
  inversion N as [|? ? N0 N1]; subst.
  cbn [Cleaner.normalize_numbers] in H.
  destruct (dict_get d k0) as [v0|] eqn:E0.
  - destruct (Cleaner.to_number repr v0) as [x0|e0] eqn:T.
    + destruct (IH N1 _ _ H) as (k & v & I & G & R).
      exists k, v. split; [now right|]. split; [|assumption].
      rewrite dict_get_set_other in G; [assumption|]. intros ->. contradiction.
    + injection H as <-. exists k0, v0. split; [now left | now split].
  - destruct (IH N1 _ _ H) as (k & v & I & G & R).
    exists k, v. split; [now right | now split].
Qed.

Lemma numbers_raise ks : NoDup ks -> forall d k v e,
  In k ks -> dict_get d k = Some v -> Cleaner.to_number repr v = Raise e ->
  exists e', Cleaner.normalize_numbers repr ks d = Raise e'.
Proof.
  induction ks as [|k0 ks IH]; intros N d k v e I G R; [contradiction|].
  inversion N as [|? ? N0 N1]; subst.
  cbn [Cleaner.normalize_numbers].
  destruct I as [->|I].
  - rewrite G, R. now exists e.
  - assert (k0 <> k) by (intros ->; contradiction).
    destruct (dict_get d k0) as [v0|] eqn:E0.
    + destruct (Cleaner.to_number repr v0) as [x0|e0] eqn:T; [|now exists e0].
      apply (IH N1 _ k v e I); [|assumption]. now rewrite dict_get_set_other.
    + now apply (IH N1 d k v e).
Qed.

(** *** Values *)

Lemma to_number_simple_result (s : Cleaner.scalar) (x : pyval) :
  Cleaner.to_number_simple s = Return x -> number_or_none x.
Proof.
  destruct s as [|b|z|f|s]; cbn [Cleaner.to_number_simple].
  - intros [= <-]. now left.
  - intros [= <-]. right. eexists. reflexivity.
  - destruct (Cleaner.float_of_int z); [|discriminate]. intros [= <-]. right. eexists. reflexivity.
  - intros [= <-]. right. eexists. reflexivity.
  - intros H. destruct to_number_simple_contract as (_ & _ & _ & _ & _ & _ & _ & C).
    destruct (C s) as (r & E & Hr). unfold Cleaner.to_number_simple in E.
    rewrite H in E. injection E as <-. exact Hr.
Qed.

Lemma to_number_result (v x : pyval) :
  Cleaner.to_number repr v = Return x -> number_or_none x.
Proof.
  destruct v; cbn [Cleaner.to_number]; try apply to_number_simple_result;
    destruct (repr _); try discriminate; apply to_number_simple_result.
Qed.

Lemma to_number_fixed (x : pyval) :
  number_or_none x -> Cleaner.to_number repr x = Return x.
Proof. intros [->|[f ->]]; reflexivity. Qed.

End Normalizer.

(** *** Years *)

Local Open Scope Z_scope.

Lemma is_digit_val (c : char) : Json.is_digit c = true -> 0 <= Z.of_N (c - 48) <= 9.
Proof.
  unfold Json.is_digit. intros H. apply andb_true_iff in H as [H1 H2].
  apply N.leb_le in H1. apply N.leb_le in H2. lia.
Qed.

Lemma int_digits_bound (s : str) : forall acc b n,
  int_digits s acc b = Some n -> 0 <= acc ->
  acc <= n /\ n < (acc + 1) * 10 ^ Z.of_nat (length s).
Proof.
  induction s as [|c r IH]; intros acc b n H Ha.
  - simpl in H. destruct b; [|discriminate]. injection H as <-. simpl. lia.
  - cbn [int_digits] in H.
    assert (P : 0 < 10 ^ Z.of_nat (length r)) by (apply Z.pow_pos_nonneg; lia).
    replace (Z.of_nat (length (c :: r))) with (Z.of_nat (length r) + 1)
      by (simpl length; lia).
    rewrite Z.pow_add_r by lia. change (10 ^ 1) with 10.
    destruct (Json.is_digit c) eqn:D.
    + pose proof (is_digit_val c D) as V.
      destruct (IH _ _ _ H ltac:(lia)) as [L U]. split; [lia|]. nia.
    + destruct (is_char "_" c && b); [|discriminate].
      destruct (IH _ _ _ H Ha) as [L U]. split; [lia|]. nia.
Qed.

Lemma length_skip_int_space (s : str) : (length (skip_int_space s) <= length s)%nat.
Proof.
  induction s as [|c r IH]; [simpl; lia|].
  simpl. destruct (int_space c); simpl; lia.
Qed.

Lemma int_of_str_short (s : str) (z : Z) :
  (length s <= 4)%nat -> int_of_str s = Some z -> -999 <= z <= 9999.
Proof.
  intros L. unfold int_of_str.
  set (t := rev (skip_int_space (rev (skip_int_space s)))).
  assert (Lt : (length t <= 4)%nat).
  { unfold t. rewrite length_rev.
    pose proof (length_skip_int_space (rev (skip_int_space s))) as A.
    rewrite length_rev in A. pose proof (length_skip_int_space s). lia. }
  assert (B : forall body sign, (length body <= length t)%nat ->
              (sign = 1 \/ (sign = -1 /\ (length body < length t)%nat)) ->
              match int_digits body 0 false with
              | Some n => Some (sign * n)
              | None => None
              end = Some z -> -999 <= z <= 9999).
  { intros body sign Lb Hs H.
    destruct (int_digits body 0 false) as [n|] eqn:E; [|discriminate].
    injection H as <-. destruct (int_digits_bound _ _ _ _ E ltac:(lia)) as [N0 N1].
    assert (P : forall k, (k <= 4)%nat -> 10 ^ Z.of_nat k <= 10000).
    { intros k Hk. change 10000 with (10 ^ 4). apply Z.pow_le_mono_r; lia. }
    assert (Q : forall k, (k <= 3)%nat -> 10 ^ Z.of_nat k <= 1000).
    { intros k Hk. change 1000 with (10 ^ 3). apply Z.pow_le_mono_r; lia. }
    destruct Hs as [->|[-> Hl]].
    - pose proof (P (length body) ltac:(lia)). lia.
    - pose proof (Q (length body) ltac:(lia)). lia. }
  destruct t as [|c r] eqn:Et.
  - apply (B [] 1); [simpl; lia | now left].
  - destruct (is_char "-" c).
    + apply (B r (-1)); [simpl; lia | right; split; [reflexivity | simpl; lia]].
    + destruct (is_char "+" c).
      * apply (B r 1); [simpl; lia | now left].
      * apply (B (c :: r) 1); [simpl; lia | now left].
Qed.

Section Years.
Variable repr : pyval -> outcome str.

Lemma normalize_year_short (v : option pyval) : short_year (Cleaner.normalize_year repr v).
Proof.
  unfold Cleaner.normalize_year. destruct v as [v|]; [|now left].
  destruct (Cleaner.blank v); [now left|].
  destruct (Cleaner.py_str repr v) as [t|]; [|now left].
  destruct (int_of_str (firstn 4 (strip t))) as [z|] eqn:E; [|now left].
  right. exists z. split; [reflexivity|].
  apply (int_of_str_short _ _ (firstn_le_length 4 _) E).
Qed.

Lemma years_kept :
  forallb year_kept (map (fun i => Z.of_nat i - 999) (seq 0 (Z.to_nat 10999))) = true.
Proof. vm_compute. reflexivity. Qed.

Lemma normalize_year_fixed (y : pyval) :
  short_year y -> Cleaner.normalize_year repr (Some y) = y.
Proof.
  intros [->|(z & -> & Hz)]; [reflexivity|].
  unfold Cleaner.normalize_year. cbn [Cleaner.blank Cleaner.py_str].
  assert (A : (Z.abs z <? 10 ^ 4300) = true).
  { apply Z.ltb_lt. apply Z.lt_le_trans with (10 ^ 4); [change (10 ^ 4) with 10000; lia|].
    apply Z.pow_le_mono_r; lia. }
  rewrite A.
  pose proof years_kept as K. rewrite forallb_forall in K.
  assert (I : In z (map (fun i => Z.of_nat i - 999) (seq 0 (Z.to_nat 10999)))).
  { apply in_map_iff. exists (Z.to_nat (z + 999)). split; [lia|].
    apply in_seq. lia. }
  specialize (K z I). unfold year_kept in K.
  destruct (int_of_str (firstn 4 (strip (str_of_int z)))) as [z'|]; [|discriminate].
  apply Z.eqb_eq in K. now subst.
Qed.

End Years.

(** *** The fields, class by class *)

Local Open Scope list_scope.

Ltac one_of H :=
  apply among_In in H; vm_compute in H;
  repeat (destruct H as [H|H]; [subst|]); try contradiction.

Lemma NoDup_text : NoDup Cleaner.text_fields.
Proof.
  repeat constructor; intros H; vm_compute in H;
    repeat (destruct H as [H|H]; [discriminate H|]); contradiction.
Qed.

Lemma NoDup_numeric : NoDup Cleaner.numeric_fields.
Proof.
  repeat constructor; intros H; vm_compute in H;
    repeat (destruct H as [H|H]; [discriminate H|]); contradiction.
Qed.

Lemma NoDup_year : NoDup Cleaner.year_fields.
Proof.
  repeat constructor; intros H; vm_compute in H;
    repeat (destruct H as [H|H]; [discriminate H|]); contradiction.
Qed.

Lemma NoDup_text_year : NoDup (Cleaner.text_fields ++ Cleaner.year_fields).
Proof.
  repeat constructor; intros H; vm_compute in H;
    repeat (destruct H as [H|H]; [discriminate H|]); contradiction.
Qed.

Lemma year_not_other k : among Cleaner.year_fields k = true ->
  among Cleaner.numeric_fields k = false /\ among Cleaner.text_fields k = false
  /\ str_eqb confianza k = false.
Proof. intros H. one_of H; repeat split; vm_compute; reflexivity. Qed.

Lemma numeric_not_other k : among Cleaner.numeric_fields k = true ->
  among Cleaner.year_fields k = false /\ among Cleaner.text_fields k = false
  /\ str_eqb confianza k = false.
Proof. intros H. one_of H; repeat split; vm_compute; reflexivity. Qed.

Lemma text_not_other k : among Cleaner.text_fields k = true ->
  among Cleaner.year_fields k = false /\ among Cleaner.numeric_fields k = false
  /\ str_eqb confianza k = false.
Proof. intros H. one_of H; repeat split; vm_compute; reflexivity. Qed.

Lemma confianza_not_other :
  among Cleaner.year_fields confianza = false
  /\ among Cleaner.numeric_fields confianza = false
  /\ among Cleaner.text_fields confianza = false.
Proof. repeat split; vm_compute; reflexivity. Qed.

Section Record.
Variable repr : pyval -> outcome str.
Variable float_of_str : str -> option pyfloat.

(** The stages of a call that returns. *)
Lemma normalize_record_stages (rec out arg : Cleaner.record) :
  Cleaner.normalize_record repr float_of_str rec = Return (out, arg) ->
  exists numbered,
    Cleaner.normalize_numbers repr Cleaner.numeric_fields
      (Cleaner.set_defaults Cleaner.text_fields rec) = Return numbered
    /\ ((exists items,
            dict_get rec confianza = Some (PyDict items)
            /\ out = dict_set (Cleaner.normalize_years repr Cleaner.year_fields numbered)
                              confianza
                              (PyDict (Cleaner.normalize_confianza float_of_str items))
            /\ arg = dict_set rec confianza
                              (PyDict (Cleaner.normalize_confianza float_of_str items)))
        \/ ((forall items, dict_get rec confianza <> Some (PyDict items))
            /\ out = Cleaner.normalize_years repr Cleaner.year_fields numbered
            /\ arg = rec))
    /\ dict_get (Cleaner.normalize_years repr Cleaner.year_fields numbered) confianza
       = dict_get rec confianza.
Proof.
  unfold Cleaner.normalize_record. cbv zeta.
  destruct (Cleaner.normalize_numbers repr Cleaner.numeric_fields
              (Cleaner.set_defaults Cleaner.text_fields rec)) as [numbered|e] eqn:E;
    [|discriminate].
  intros H. exists numbered. split; [reflexivity|].
  destruct confianza_not_other as (C1 & C2 & C3).
  assert (G : dict_get (Cleaner.normalize_years repr Cleaner.year_fields numbered) confianza
              = dict_get rec confianza).
  { rewrite (get_normalize_years repr _ NoDup_year). rewrite C1.
    destruct (numbers_returned repr _ NoDup_numeric _ _ E) as [_ N].
    rewrite (proj1 (N confianza) C2). rewrite get_set_defaults, C3.
    now destruct (dict_get rec confianza). }
  split; [|exact G].
  change (lit "confianza") with confianza in H. rewrite G in H.
  destruct (dict_get rec confianza) as [[| | | | | |items]|] eqn:R;
    try (right; injection H as <- <-; split; [intros items'; discriminate | now split]).
  left. exists items. injection H as <- <-. now repeat split.
Qed.

Lemma get_result (rec out arg : Cleaner.record) (k : str) :
  Cleaner.normalize_record repr float_of_str rec = Return (out, arg) ->
  str_eqb confianza k = false ->
  exists numbered,
    Cleaner.normalize_numbers repr Cleaner.numeric_fields
      (Cleaner.set_defaults Cleaner.text_fields rec) = Return numbered
    /\ dict_get out k
       = dict_get (Cleaner.normalize_years repr Cleaner.year_fields numbered) k.
Proof.
  intros H Hk. destruct (normalize_record_stages _ _ _ H) as (numbered & E & S & _).
  exists numbered. split; [assumption|].
  destruct S as [(items & _ & -> & _)|(_ & -> & _)]; [|reflexivity].
  rewrite dict_get_set. now rewrite Hk.
Qed.

Lemma year_field (rec out arg : Cleaner.record) (k : str) :
  Cleaner.normalize_record repr float_of_str rec = Return (out, arg) ->
  among Cleaner.year_fields k = true ->
  dict_get out k = Some (Cleaner.normalize_year repr (dict_get rec k)).
Proof.
  intros H Hk. destruct (year_not_other k Hk) as (Y1 & Y2 & Y3).
  destruct (get_result _ _ _ k H Y3) as (numbered & E & ->).
  rewrite (get_normalize_years repr _ NoDup_year), Hk.
  destruct (numbers_returned repr _ NoDup_numeric _ _ E) as [_ N].
  rewrite (proj1 (N k) Y1). rewrite get_set_defaults, Y2.
  now destruct (dict_get rec k).
Qed.

Lemma numeric_field (rec out arg : Cleaner.record) (k : str) :
  Cleaner.normalize_record repr float_of_str rec = Return (out, arg) ->
  among Cleaner.numeric_fields k = true ->
  (dict_get rec k = None -> dict_get out k = None)
  /\ (forall v, dict_get rec k = Some v ->
      exists x, Cleaner.to_number repr v = Return x /\ dict_get out k = Some x).
Proof.
  intros H Hk. destruct (numeric_not_other k Hk) as (Y1 & Y2 & Y3).
  destruct (get_result _ _ _ k H Y3) as (numbered & E & ->).
  rewrite (get_normalize_years repr _ NoDup_year), Y1.
  destruct (numbers_returned repr _ NoDup_numeric _ _ E) as [_ N].
  destruct (N k) as (_ & N2 & N3).
  assert (G : dict_get (Cleaner.set_defaults Cleaner.text_fields rec) k = dict_get rec k).
  { rewrite get_set_defaults, Y2. now destruct (dict_get rec k). }
  rewrite G in N2, N3. split; [now apply N2 | now apply N3].
Qed.

Lemma other_field (rec out arg : Cleaner.record) (k : str) :
  Cleaner.normalize_record repr float_of_str rec = Return (out, arg) ->
  among Cleaner.numeric_fields k = false -> among Cleaner.year_fields k = false ->
  str_eqb confianza k = false ->
  dict_get out k
  = match dict_get rec k with
    | Some v => Some v
    | None => if among Cleaner.text_fields k then Some PyNone else None
    end.
Proof.
  intros H Y1 Y2 Y3.
  destruct (get_result _ _ _ k H Y3) as (numbered & E & ->).
  rewrite (get_normalize_years repr _ NoDup_year), Y2.
  destruct (numbers_returned repr _ NoDup_numeric _ _ E) as [_ N].
  rewrite (proj1 (N k) Y1). apply get_set_defaults.
Qed.

Lemma confianza_field (rec out arg : Cleaner.record) :
  Cleaner.normalize_record repr float_of_str rec = Return (out, arg) ->
  dict_get out confianza
  = match dict_get rec confianza with
    | Some (PyDict items) => Some (PyDict (Cleaner.normalize_confianza float_of_str items))
    | o => o
    end.
Proof.
  intros H. destruct (normalize_record_stages _ _ _ H) as (numbered & E & S & G).
  destruct S as [(items & R & -> & _)|(R & -> & _)].
  - rewrite R. apply dict_get_set_same.
  - rewrite G. destruct (dict_get rec confianza) as [[| | | | | |items]|]; try reflexivity.
    now destruct (R items).
Qed.

(** X13.  [normalize_record] keeps every key of the record in its
    place and adds at the end those of [nombre], [sector],
    [doc_fuente], [fecha_carga], [anio_inicio] and [anio_fin] that the
    record lacks, in this order, and no other key; the argument keeps
    its keys. *)
Theorem normalize_record_keys (rec out arg : Cleaner.record) :
  Cleaner.normalize_record repr float_of_str rec = Return (out, arg) ->
  map fst out
  = map fst rec
    ++ filter (fun k => negb (has_key rec k)) (Cleaner.text_fields ++ Cleaner.year_fields)
  /\ map fst arg = map fst rec.
Proof.
  intros H. destruct (normalize_record_stages _ _ _ H) as (numbered & E & S & G).
  destruct (numbers_returned repr _ NoDup_numeric _ _ E) as [K N].
  assert (K1 : map fst (Cleaner.set_defaults Cleaner.text_fields rec)
               = map fst rec ++ filter (fun k => negb (has_key rec k)) Cleaner.text_fields).
  { apply (keys_fold (fun rec k => setdefault rec k PyNone)); [|exact NoDup_text].
    intros d k. apply keys_setdefault. }
  assert (K3 : map fst (Cleaner.normalize_years repr Cleaner.year_fields numbered)
               = map fst rec
                 ++ filter (fun k => negb (has_key rec k))
                           (Cleaner.text_fields ++ Cleaner.year_fields)).
  { unfold Cleaner.normalize_years.
    rewrite (keys_fold (fun rec ky => dict_set rec ky
                          (Cleaner.normalize_year repr (dict_get rec ky))));
      [|intros d k; apply keys_dict_set | exact NoDup_year].
    rewrite K, K1, filter_app, <- app_assoc. do 2 f_equal.
    apply filter_ext_in. intros k Hk. f_equal.
    apply among_In in Hk. destruct (year_not_other k Hk) as (Y1 & Y2 & _).
    unfold has_key. rewrite (proj1 (N k) Y1), get_set_defaults, Y2.
    now destruct (dict_get rec k). }
  destruct S as [(items & R & -> & ->)|(R & -> & ->)].
  - split.
    + rewrite keys_dict_set. unfold has_key. rewrite G, R. now rewrite app_nil_r.
    + rewrite keys_dict_set. unfold has_key. rewrite R. apply app_nil_r.
  - now split.
Qed.

(** X14.  A field that is neither numeric, nor a year, nor
    [confianza] is returned as it is; [nombre], [sector], [doc_fuente]
    and [fecha_carga] read [None] where the record lacks them. *)
Theorem normalize_record_other_fields (rec out arg : Cleaner.record) (k : str) :
  Cleaner.normalize_record repr float_of_str rec = Return (out, arg) ->
  ~ In k Cleaner.numeric_fields -> ~ In k Cleaner.year_fields -> k <> lit "confianza" ->
  dict_get out k
  = match dict_get rec k with
    | Some v => Some v
    | None => if among Cleaner.text_fields k then Some PyNone else None
    end.
Proof.
  intros H N Y C. apply (other_field rec out arg k H).
  - destruct (among Cleaner.numeric_fields k) eqn:E; [|reflexivity].
    apply among_In in E. contradiction.
  - destruct (among Cleaner.year_fields k) eqn:E; [|reflexivity].
    apply among_In in E. contradiction.
  - apply str_eqb_neq. intros E. apply C. now rewrite <- E.
Qed.

(** X15.  A numeric field that the record has holds afterwards what
    [to_number_simple] makes of its value, which is [None] or a
    [float]; one that the record lacks is not added. *)
Theorem normalize_record_numbers (rec out arg : Cleaner.record) (k : str) :
  Cleaner.normalize_record repr float_of_str rec = Return (out, arg) ->
  In k Cleaner.numeric_fields ->
  (dict_get rec k = None -> dict_get out k = None)
  /\ (forall v, dict_get rec k = Some v ->
      exists x, Cleaner.to_number repr v = Return x
                /\ dict_get out k = Some x /\ number_or_none x).
Proof.
  intros H I. apply among_In in I.
  destruct (numeric_field rec out arg k H I) as [A B]. split; [assumption|].
  intros v E. destruct (B v E) as (x & T & G). exists x. repeat split; try assumption.
  exact (to_number_result repr v x T).
Qed.


(** *** A second call *)

Lemma py_float_fixed (v : pyval) :
  match Cleaner.py_float float_of_str
          (match Cleaner.py_float float_of_str v with
           | Some f => PyFloat f
           | None => PyNone
           end) with
  | Some f => PyFloat f
  | None => PyNone
  end
  = match Cleaner.py_float float_of_str v with
    | Some f => PyFloat f
    | None => PyNone
    end.
Proof. now destruct (Cleaner.py_float float_of_str v). Qed.

Lemma normalize_confianza_fixed (items : Cleaner.record) :
  Cleaner.normalize_confianza float_of_str (Cleaner.normalize_confianza float_of_str items)
  = Cleaner.normalize_confianza float_of_str items.
Proof.
  unfold Cleaner.normalize_confianza. rewrite map_map. apply map_ext.
  intros [k v]. cbn [fst snd]. now rewrite py_float_fixed.
Qed.

Lemma set_defaults_fixed ks : forall d,
  (forall k, In k ks -> has_key d k = true) -> Cleaner.set_defaults ks d = d.
Proof.
  induction ks as [|k0 ks IH]; intros d H; [reflexivity|].
  change (Cleaner.set_defaults (k0 :: ks) d)
    with (Cleaner.set_defaults ks (setdefault d k0 PyNone)).
  assert (E : setdefault d k0 PyNone = d).
  { unfold setdefault. pose proof (H k0 (or_introl eq_refl)) as K. unfold has_key in K.
    now destruct (dict_get d k0). }
  rewrite E. apply IH. intros k Hk. apply H. now right.
Qed.

Lemma normalize_numbers_fixed ks : forall d,
  (forall k, In k ks ->
     dict_get d k = None \/ exists x, dict_get d k = Some x /\ number_or_none x) ->
  Cleaner.normalize_numbers repr ks d = Return d.
Proof.
  induction ks as [|k0 ks IH]; intros d H; [reflexivity|].
  cbn [Cleaner.normalize_numbers].
  destruct (H k0 (or_introl eq_refl)) as [E|(x & E & Hx)]; rewrite E.
  - apply IH. intros k Hk. apply H. now right.
  - rewrite (to_number_fixed repr x Hx). rewrite (dict_set_same d k0 x E).
    apply IH. intros k Hk. apply H. now right.
Qed.

Lemma normalize_years_fixed ks : forall d,
  (forall k, In k ks -> exists y, dict_get d k = Some y /\ short_year y) ->
  Cleaner.normalize_years repr ks d = d.
Proof.
  induction ks as [|k0 ks IH]; intros d H; [reflexivity|].
  change (Cleaner.normalize_years repr (k0 :: ks) d)
    with (Cleaner.normalize_years repr ks
            (dict_set d k0 (Cleaner.normalize_year repr (dict_get d k0)))).
  destruct (H k0 (or_introl eq_refl)) as (y & E & Hy).
  rewrite E, (normalize_year_fixed repr y Hy), (dict_set_same d k0 y E).
  apply IH. intros k Hk. apply H. now right.
Qed.

(** X17.  [normalize_record] is idempotent: a record that it returned
    is returned unchanged by a second call, and left unchanged as an
    argument. *)
Theorem normalize_record_idempotent (rec out arg : Cleaner.record) :
  Cleaner.normalize_record repr float_of_str rec = Return (out, arg) ->
  Cleaner.normalize_record repr float_of_str out = Return (out, out).
Proof.
  intros H. unfold Cleaner.normalize_record. cbv zeta.
  rewrite set_defaults_fixed.
  2:{ intros k Hk. apply among_In in Hk. destruct (text_not_other k Hk) as (Y1 & Y2 & Y3).
      unfold has_key. rewrite (other_field rec out arg k H Y2 Y1 Y3), Hk.
      now destruct (dict_get rec k). }
  rewrite normalize_numbers_fixed.
  2:{ intros k Hk. apply among_In in Hk.
      destruct (numeric_field rec out arg k H Hk) as [A B].
      destruct (dict_get rec k) as [v|] eqn:E; [|left; now apply A].
      right. destruct (B v eq_refl) as (x & T & G). exists x. split; [assumption|].
      exact (to_number_result repr v x T). }
  rewrite normalize_years_fixed.
  2:{ intros k Hk. apply among_In in Hk. eexists. split.
      - exact (year_field rec out arg k H Hk).
      - apply normalize_year_short. }
  change (lit "confianza") with confianza.
  rewrite (confianza_field rec out arg H).
  destruct (dict_get rec confianza) as [[| | | | | |items]|] eqn:R; try reflexivity.
  rewrite normalize_confianza_fixed.
  assert (G : dict_get out confianza
              = Some (PyDict (Cleaner.normalize_confianza float_of_str items)))
    by (rewrite (confianza_field rec out arg H), R; reflexivity).
  now rewrite (dict_set_same out confianza _ G).
Qed.

(** X18.  [normalize_record] raises what the conversion of a numeric
    field raises, and nothing else; it does raise when a numeric field
    holds an integer from [2^1024 - 2^970] on, which [float] rejects:
    the years and the values under [confianza] are guarded, the
    numeric fields are not. *)
Theorem normalize_record_raises (rec : Cleaner.record) :
  (forall e, Cleaner.normalize_record repr float_of_str rec = Raise e ->
     exists k v, In k Cleaner.numeric_fields /\ dict_get rec k = Some v
                 /\ Cleaner.to_number repr v = Raise e)
  /\ (forall k z, In k Cleaner.numeric_fields -> dict_get rec k = Some (PyInt z) ->
        (2 ^ 1024 - 2 ^ 970 <= Z.abs z)%Z ->
        exists e, Cleaner.normalize_record repr float_of_str rec = Raise e).
Proof.
  split.
  - intros e H. unfold Cleaner.normalize_record in H. cbv zeta in H.
    destruct (Cleaner.normalize_numbers repr Cleaner.numeric_fields
                (Cleaner.set_defaults Cleaner.text_fields rec)) as [numbered|e'] eqn:E.
    + destruct (dict_get _ (lit "confianza")) as [[| | | | | |items]|]; discriminate.
    + injection H as <-.
      destruct (numbers_raised repr _ NoDup_numeric _ _ E) as (k & v & I & G & R).
      exists k, v. split; [assumption|]. split; [|assumption].
      rewrite get_set_defaults in G. apply among_In in I.
      destruct (numeric_not_other k I) as (_ & Y2 & _). rewrite Y2 in G.
      now destruct (dict_get rec k).
  - intros k z I G Hz.
    assert (R : Cleaner.to_number repr (PyInt z) = Raise OverflowError).
    { cbn [Cleaner.to_number Cleaner.to_number_simple]. unfold Cleaner.float_of_int.
      destruct (Z.ltb_spec (Z.abs z) (2 ^ 1024 - 2 ^ 970)); [lia | reflexivity]. }
    assert (G' : dict_get (Cleaner.set_defaults Cleaner.text_fields rec) k = Some (PyInt z)).
    { rewrite get_set_defaults. now rewrite G. }
    destruct (numbers_raise repr _ NoDup_numeric _ k _ _ I G' R) as [e E].
    exists e. unfold Cleaner.normalize_record. cbv zeta. now rewrite E.
Qed.

(** X19.  The call changes its argument: the [dict] under
    [confianza] is normalized in place, so that the argument holds
    afterwards the one that the result holds; the other fields of the
    argument are as they were. *)
Theorem normalize_record_argument (rec out arg : Cleaner.record) :
  Cleaner.normalize_record repr float_of_str rec = Return (out, arg) ->
  dict_get arg (lit "confianza") = dict_get out (lit "confianza")
  /\ (forall items, dict_get rec (lit "confianza") = Some (PyDict items) ->
      dict_get arg (lit "confianza")
      = Some (PyDict (Cleaner.normalize_confianza float_of_str items)))
  /\ (forall k, k <> lit "confianza" -> dict_get arg k = dict_get rec k).
Proof.
  intros H. change (lit "confianza") with confianza.
  pose proof (confianza_field rec out arg H) as C.
  destruct (normalize_record_stages _ _ _ H) as (numbered & E & S & G).
  destruct S as [(items & R & Ho & ->)|(R & Ho & ->)].
  - rewrite C, R, dict_get_set_same. split; [reflexivity|]. split.
    + intros items' [= <-]. reflexivity.
    + intros k Hk. apply dict_get_set_other. congruence.
  - split.
    + rewrite C. destruct (dict_get rec confianza) as [[| | | | | |items]|]; try reflexivity.
      now destruct (R items).
    + split; [|reflexivity]. intros items E'. now destruct (R items).
Qed.

End Record.

(** *** The sample record *)

Ltac not_among := intros H; vm_compute in H;
  repeat (destruct H as [H|H]; [discriminate H|]); exact H.

Lemma normalize_record_keys_witness :
  map fst sample_result
  = map fst sample_record
    ++ filter (fun k => negb (has_key sample_record k))
              (Cleaner.text_fields ++ Cleaner.year_fields)
  /\ map fst sample_argument = map fst sample_record.
Proof.
  apply (normalize_record_keys sample_repr sample_float sample_record).
  vm_compute. reflexivity.
Defined.

Lemma normalize_record_other_fields_witness :
  dict_get sample_result (lit "ubicacion") = Some (PyStr (lit "CDMX"))
  /\ dict_get sample_result (lit "nombre") = Some PyNone.
Proof.
  split.
  - apply (normalize_record_other_fields sample_repr sample_float
             sample_record sample_result sample_argument (lit "ubicacion"));
      [vm_compute; reflexivity | not_among | not_among | discriminate].
  - apply (normalize_record_other_fields sample_repr sample_float
             sample_record sample_result sample_argument (lit "nombre"));
      [vm_compute; reflexivity | not_among | not_among | discriminate].
Defined.

Lemma normalize_record_numbers_witness :
  exists x,
    Cleaner.to_number sample_repr (PyStr (lit "15 millones")) = Return x
    /\ dict_get sample_result (lit "presupuesto_total_mxn") = Some x
    /\ number_or_none x.
Proof.
  destruct (normalize_record_numbers sample_repr sample_float
              sample_record sample_result sample_argument (lit "presupuesto_total_mxn"))
    as [_ B]; [vm_compute; reflexivity | now left |].
  apply B. reflexivity.
Defined.


Lemma normalize_record_idempotent_witness :
  Cleaner.normalize_record sample_repr sample_float sample_result
  = Return (sample_result, sample_result).
Proof.
  apply (normalize_record_idempotent sample_repr sample_float
           sample_record sample_result sample_argument).
  vm_compute. reflexivity.
Defined.

Lemma normalize_record_raises_witness :
  exists e,
    Cleaner.normalize_record sample_repr sample_float [(lit "kpi", PyInt (10 ^ 400))]
    = Raise e.
Proof.
  destruct (normalize_record_raises sample_repr sample_float
              [(lit "kpi", PyInt (10 ^ 400))]) as [_ H].
  apply (H (lit "kpi") (10 ^ 400)%Z).
  - do 5 right. now left.
  - reflexivity.
  - vm_compute. discriminate.
Defined.

Lemma normalize_record_argument_witness :
  dict_get sample_argument (lit "confianza")
  = Some (PyDict [(lit "sector", PyFloat (Finite (1 # 2))); (lit "kpi", PyNone)])
  /\ dict_get sample_record (lit "confianza")
     = Some (PyDict [(lit "sector", PyStr (lit "0.5")); (lit "kpi", PyNone)]).
Proof.
  destruct (normalize_record_argument sample_repr sample_float
              sample_record sample_result sample_argument) as (_ & B & _);
    [vm_compute; reflexivity|].
  split; [|reflexivity].
  apply (B [(lit "sector", PyStr (lit "0.5")); (lit "kpi", PyNone)]). reflexivity.
Defined.
